(** * The exoplanet transit calculator of the OEC notebook

    A shallow embedding of the classes [OEC], [Star] and [Exoplanet] of the
    notebook, and of the [Transit] named tuple.

    - [Py]: how a Python call ends (a value or a raised exception).
    - [Bag]: [OEC._build_properties] and [OEC.name] on the attribute
      dictionary of the instance.
    - [Timing]: the arithmetic of [Exoplanet.in_transit] and
      [Exoplanet.transits_in_range] on [Time] objects.  Instants are
      Julian dates, durations are days; both are rationals (every finite
      float is one) and arithmetic is exact.
    - [Isot]: the same two methods with the texts around that arithmetic:
      a [str] argument parsed by [Time], and the windows returned as the
      texts that [.isot] writes, to the millisecond.
    - [Geometry]: [Exoplanet.transit_duration] and
      [Exoplanet.transit_depth] on astropy quantities.  Floats are read as
      real numbers, with one extra element for what numpy returns outside
      the real domain. *)

From Stdlib Require Import ZArith QArith Qround Reals Psatz List String Ascii.
From stdpp Require Import gmap strings.

(** ** Python outcomes *)

Module Py.

(** The exceptions that the modelled code can raise.
    [UnitConversionError] is astropy's.  [ValueError] stands for its
    subclasses too: [ErfaError], which the ERFA routines under
    [astropy.time] raise, is one. *)
Inductive exn : Set :=
| NameError
| AttributeError
| TypeError
| ValueError
| IndexError
| OverflowError
| UnitConversionError.

Inductive outcome (A : Type) : Type :=
| Returns (a : A)
| Raises (e : exn).

Arguments Returns {A} a.
Arguments Raises {A} e.

Definition bind {A B : Type} (c : outcome A) (k : A -> outcome B) : outcome B :=
  match c with
  | Returns a => k a
  | Raises e => Raises e
  end.

End Py.

Import Py.

Notation "x <-- c ;; k" := (Py.bind c (fun x => k))
  (at level 100, c at next level, right associativity).

(** ** The attribute dictionary of an [OEC] instance *)

Module Bag.

Local Open Scope string_scope.

(** A child of the XML element handed to [_build_properties]:
    [elem.tag] and [elem.text] (a [str], or [None] for an empty element). *)
Record Element : Set := mkElement { tag : string; text : option string }.

(** What [setattr] does on instances of a class, besides writing the
    instance dictionary: the names it refuses, with the exception raised
    (a property without setter, [__class__], ...). *)
Record pyclass : Set := mkClass { refuses : string -> option exn }.

Definition object_refuses (k : string) : option exn :=
  if String.eqb k "__class__" then Some TypeError
  else if String.eqb k "__dict__" then Some TypeError
  else if String.eqb k "__weakref__" then Some AttributeError
  else None.

(** [class OEC(object)]: one property, [name], without setter. *)
Definition OEC_class : pyclass :=
  {| refuses := fun k =>
       if String.eqb k "name" then Some AttributeError else object_refuses k |}.

(** [class Star(OEC)] declares no property. *)
Definition Star_class : pyclass := OEC_class.

(** [class Exoplanet(OEC)]: the properties [transit_duration], [b],
    [impact_parameter] and [transit_depth] have no setter either. *)
Definition Exoplanet_class : pyclass :=
  {| refuses := fun k =>
       if String.eqb k "transit_duration" then Some AttributeError
       else if String.eqb k "b" then Some AttributeError
       else if String.eqb k "impact_parameter" then Some AttributeError
       else if String.eqb k "transit_depth" then Some AttributeError
       else refuses OEC_class k |}.

Section WithFloat.

(** The floats, and [float(s)] on a [str]: the value, or [None] where
    Python raises [ValueError]. *)
Context {F : Type}.
Variable py_float : string -> option F.

Inductive pyval : Type :=
| PNone
| PFloat (x : F)
| PStr (s : string)
| PList (l : list (option string))
| PObject.

(** [elem.text] as a Python value. *)
Definition text_value (text : option string) : pyval :=
  match text with
  | Some s => PStr s
  | None => PNone
  end.

(** [float(elem.text)] *)
Definition float (text : option string) : outcome F :=
  match text with
  | None => Raises TypeError
  | Some s =>
      match py_float s with
      | Some x => Returns x
      | None => Raises ValueError
      end
  end.

(** [setattr(self, name, v)] *)
Definition setattr (cls : pyclass) (self : gmap string pyval)
    (name : string) (v : pyval) : outcome (gmap string pyval) :=
  match refuses cls name with
  | Some e => Raises e
  | None => Returns (<[name := v]> self)
  end.

(** [self.names.append(x)] *)
Definition names_append (self : gmap string pyval) (x : option string)
  : outcome (gmap string pyval) :=
  match self !! "names" with
  | Some (PList l) => Returns (<["names" := PList (l ++ [x])%list]> self)
  | _ => Raises AttributeError
  end.

(** The body of the [for] loop of [_build_properties]. *)
Definition build_step (cls : pyclass) (self : gmap string pyval)
    (elem : Element) : outcome (gmap string pyval) :=
  if negb (String.eqb (tag elem) "name") then
    match (x <-- float (text elem) ;;
           setattr cls self (tag elem) (PFloat x)) with
    | Returns self' => Returns self'
    | Raises ValueError => setattr cls self (tag elem) (text_value (text elem))
    | Raises AttributeError => Returns self
    | Raises TypeError => Returns self
    | Raises e => Raises e
    end
  else names_append self (text elem).

Fixpoint _build_properties (cls : pyclass) (self : gmap string pyval)
    (element : list Element) : outcome (gmap string pyval) :=
  match element with
  | nil => Returns self
  | elem :: rest =>
      self' <-- build_step cls self elem ;;
      _build_properties cls self' rest
  end.

(** The property [name]: [self.names[0]]. *)
Definition name (self : gmap string pyval) : outcome pyval :=
  match self !! "names" with
  | None => Raises AttributeError
  | Some (PList l) =>
      match l with
      | nil => Raises IndexError
      | a :: _ => Returns (text_value a)
      end
  | Some (PStr s) =>
      match s with
      | EmptyString => Raises IndexError
      | String c _ => Returns (PStr (String c EmptyString))
      end
  | Some _ => Raises TypeError
  end.

(** [OEC.__init__]: the parsed catalogue under [oec] and an empty list
    under [names]. *)
Definition OEC_init : gmap string pyval :=
  <["names" := PList nil]> (<["oec" := PObject]> ∅).

(** *** The property bag in the words of the specification *)

Record bag : Type := mkBag { aliases : list (option string);
                             fields : gmap string pyval }.

Definition build_spec_step (b : bag) (elem : Element) : bag :=
  if String.eqb (tag elem) "name" then
    {| aliases := (aliases b ++ [text elem])%list; fields := fields b |}
  else
    match text elem with
    | None => b
    | Some s =>
        match py_float s with
        | Some x =>
            {| aliases := aliases b;
               fields := <[tag elem := PFloat x]> (fields b) |}
        | None =>
            {| aliases := aliases b;
               fields := <[tag elem := PStr s]> (fields b) |}
        end
    end.

Definition build_spec (b : bag) (element : list Element) : bag :=
  fold_left build_spec_step element b.

Definition name_spec (b : bag) : outcome pyval :=
  match aliases b with
  | nil => Raises IndexError
  | a :: _ => Returns (text_value a)
  end.

(** The instance dictionary that holds a bag. *)
Definition object_of (b : bag) : gmap string pyval :=
  <["names" := PList (aliases b)]> (fields b).

End WithFloat.

(** The elements on which the loop body only writes the bag: a "name"
    element, an element without text, or a tag other than "names" that
    [setattr] accepts. *)
Definition plain_tag (cls : pyclass) (elem : Element) : Prop :=
  tag elem = "name"
  \/ text elem = None
  \/ (tag elem <> "names" /\ refuses cls (tag elem) = None).

Arguments pyval : clear implicits.
Arguments bag : clear implicits.

(** *** A reader of decimal numerals, for the examples

    [float] of Python accepts more (exponents, [inf], [nan], blanks
    around the numeral); on numerals made of an optional sign, digits and
    an optional point this reader gives the same number. *)

Definition digit_of (c : ascii) : option Z :=
  let n := Z.of_N (N_of_ascii c) in
  if ((48 <=? n) && (n <=? 57))%Z then Some (n - 48)%Z else None.

Fixpoint read_digits (s : string) (acc : Z) (count : nat)
  : Z * nat * string :=
  match s with
  | EmptyString => (acc, count, s)
  | String c rest =>
      match digit_of c with
      | Some d => read_digits rest (10 * acc + d)%Z (S count)
      | None => (acc, count, s)
      end
  end.

Definition read_unsigned (s : string) : option Q :=
  let '(i, ni, r) := read_digits s 0%Z 0%nat in
  match r with
  | EmptyString => if (0 <? ni)%nat then Some (inject_Z i) else None
  | String "." r' =>
      let '(f, nf, r'') := read_digits r' 0%Z 0%nat in
      match r'' with
      | EmptyString =>
          if (0 <? ni + nf)%nat
          then Some (Qmake (i * 10 ^ Z.of_nat nf + f) (Z.to_pos (10 ^ Z.of_nat nf)))
          else None
      | _ => None
      end
  | _ => None
  end.

Definition read_decimal (s : string) : option Q :=
  match s with
  | String "-" r => option_map Qopp (read_unsigned r)
  | String "+" r => read_unsigned r
  | _ => read_unsigned s
  end.

(** The bag of a fresh instance, and a few catalogue elements. *)
Definition fresh_bag : bag Q :=
  {| aliases := nil; fields := <["oec" := PObject]> ∅ |}.

Definition tres3_elements : list Element :=
  [ mkElement "name" (Some "TrES-3");
    mkElement "name" (Some "GSC 03089-00929");
    mkElement "period" (Some "1.30619");
    mkElement "discoverymethod" (Some "transit");
    mkElement "description" None ].

End Bag.

(** ** Transit timing *)

Module Timing.

Local Open Scope Q_scope.

(** The three [Time] objects [ingress], [midpoint] and [egress] that the
    body of either loop computes for one transit, before they are written
    out.  The named tuple [Transit] that the notebook returns holds their
    texts [ingress.isot], [midpoint.isot] and [egress.isot], which round
    to the millisecond: that tuple is [Isot.TransitIsot]. *)
Record Transit : Set := mkTransit { ingress : Q; midpoint : Q; egress : Q }.

(** The attributes of an [Exoplanet] that the timing methods read.
    [transittime] is a Julian date, [period] is in days, and
    [transit_duration] is the value of the property of that name, a finite
    number of minutes. *)
Record Exoplanet : Set :=
  mkExoplanet { transittime : Q; period : Q; transit_duration : Q }.

Record Star : Set := mkStar { planet : Exoplanet }.

(** The module-level name [star] of the notebook: bound to a [Star]
    ([star = Star('TrES-3', file=oec_file)]) or not bound at all. *)
Definition module_star : Set := option Star.

Definition lookup_star (g : module_star) : outcome Star :=
  match g with
  | Some s => Returns s
  | None => Raises NameError
  end.

(** [TimeDelta.sec] of a difference of Julian dates. *)
Definition sec (days : Q) : Q := days * 86400.

(** [int(a // b)] on the numpy floats that [.sec] returns: the floor of
    the quotient.  By a zero divisor [//] raises nothing: it gives [nan]
    for a zero dividend and an infinity otherwise, and [int] then raises
    [ValueError] on the first and [OverflowError] on the second. *)
Definition floordiv (a b : Q) : outcome Z :=
  if Qeq_bool b 0 then
    if Qeq_bool a 0 then Raises ValueError else Raises OverflowError
  else Returns (Qfloor (a / b)).

(** [self.transit_duration * u.minute / 2], as a number of days. *)
Definition half_duration (self : Exoplanet) : Q :=
  transit_duration self / 2 / 1440.

(** The body shared by both loops: midpoint, ingress and egress of the
    transit of index [n]. *)
Definition window (transittime period_delta : Q) (self : Exoplanet) (n : Z)
  : Transit :=
  let midpoint := transittime + inject_Z n * period_delta in
  {| ingress := midpoint - half_duration self;
     midpoint := midpoint;
     egress := midpoint + half_duration self |}.

Definition Qgtb (a b : Q) : bool := negb (Qle_bool a b).

(** [t1 >= ingress and t1 <= egress] *)
Definition inside (t1 : Q) (w : Transit) : bool :=
  Qle_bool (ingress w) t1 && Qle_bool t1 (egress w).

(** [range(num, num+2)] *)
Definition range2 (num : Z) : list Z := [num; (num + 1)%Z].

(** The [for] loop of [in_transit]: [last] is the value of the variable
    [in_transit] and the window bound by the last iteration, if any. *)
Fixpoint in_transit_for (transittime period_delta : Q) (self : Exoplanet)
    (t1 : Q) (ns : list Z) (last : bool * option Transit)
  : bool * option Transit :=
  match ns with
  | nil => last
  | n :: rest =>
      let w := window transittime period_delta self n in
      let in_transit := inside t1 w in
      if in_transit then (in_transit, Some w)
      else in_transit_for transittime period_delta self t1 rest
             (in_transit, Some w)
  end.

(** What [in_transit] returns: the flag, or the pair of the flag and the
    last window computed when [with_times] is set. *)
Inductive in_transit_result : Set :=
| Flag (b : bool)
| FlagTimes (b : bool) (w : Transit).

(** [in_transit(self, t1, with_times=False)] from its third line on, for
    [t1] a [Time] object, with the last window as instants.  [g] is the
    binding of the module-level name [star], which the body reads twice.
    The parse of a [str] argument before this body, which can raise, and
    the texts written after it are in [Isot.in_transit_isot]. *)
Definition in_transit (g : module_star) (self : Exoplanet) (t1 : Q)
    (with_times : bool) : outcome in_transit_result :=
  s <-- lookup_star g ;;
  let transittime := transittime (planet s) in
  s' <-- lookup_star g ;;
  let period_delta := period (planet s') in
  num <-- floordiv (sec (t1 - transittime)) (sec period_delta) ;;
  let '(in_transit, last) :=
    in_transit_for transittime period_delta self t1 (range2 num) (false, None) in
  if with_times then
    match last with
    | Some w => Returns (FlagTimes in_transit w)
    | None => Raises NameError
    end
  else Returns (Flag in_transit).

(** The [while True] loop of [transits_in_range] on instants: the
    windows are appended as they are computed, and [None] means that the
    loop is still running when the fuel is spent.  Writing a window out
    with [.isot] raises on a date that ERFA does not accept, which ends
    the loop of the notebook; the loop with that step is
    [Isot.transits_while_isot]. *)
Fixpoint transits_while (fuel : nat) (transittime period_delta : Q)
    (self : Exoplanet) (t1 : Q) (num : Z) (transits : list Transit)
  : option (list Transit) :=
  match fuel with
  | O => None
  | S fuel' =>
      let w := window transittime period_delta self num in
      if Qgtb (ingress w) t1 then Some transits
      else transits_while fuel' transittime period_delta self t1
             (num + 1)%Z (transits ++ [w])
  end.

(** [transits_in_range(self, t0, t1, num_of_transits=10)] for [t0] and
    [t1] two [Time] objects, with the binding [g] of the module-level name
    [star] and the fuel of the loop; the list holds the instants that the
    notebook writes out.  [Isot.transits_in_range_isot] adds the parse of
    [str] bounds and the texts. *)
Definition transits_in_range (g : module_star) (self : Exoplanet)
    (t0 t1 : Q) (num_of_transits : Z) (fuel : nat)
  : option (outcome (list Transit)) :=
  match lookup_star g with
  | Raises e => Some (Raises e)
  | Returns s =>
      let transittime := transittime (planet s) in
      let period_delta := period (planet s) in
      match floordiv (sec (t0 - transittime)) (sec period_delta) with
      | Raises e => Some (Raises e)
      | Returns q =>
          let num := (q - 1)%Z in
          match transits_while fuel transittime period_delta self t1 num nil with
          | Some transits => Some (Returns transits)
          | None => None
          end
      end
  end.

(** The indices [n0, n0+1, ..., n0+k-1]. *)
Fixpoint indices (n0 : Z) (k : nat) : list Z :=
  match k with
  | O => nil
  | S k' => n0 :: indices (n0 + 1)%Z k'
  end.

(** The index of the last window entered no later than [t1]. *)
Definition last_index (T P : Q) (self : Exoplanet) (t1 : Q) : Z :=
  Qfloor ((t1 + half_duration self - T) / P).

(** Two planets and a star for the examples: mid-transit at JD 0 every
    2 days, and mid-transit at JD 1 every 3 days, each transit lasting
    1440 minutes. *)
Definition planet_a : Exoplanet :=
  {| transittime := 0; period := 2; transit_duration := 1440 |}.
Definition planet_b : Exoplanet :=
  {| transittime := 1; period := 3; transit_duration := 1440 |}.
Definition star_a : Star := {| planet := planet_a |}.
Definition star_b : Star := {| planet := planet_b |}.

End Timing.

(** ** The texts of instants *)

Module Isot.

Import Timing.
Local Open Scope Q_scope.

(** A text [YYYY-MM-DDTHH:MM:SS.sss], the shape that [.isot] writes.  It
    names an instant to the millisecond and is given here by that instant:
    a whole number of milliseconds since JD 0. *)
Record IsoText : Set := mkIsoText { milliseconds : Z }.

Definition ms_per_day : Q := 86400000.

(** The instant that a text names, as a Julian date. *)
Definition instant (x : IsoText) : Q :=
  inject_Z (milliseconds x) / ms_per_day.

(** The argument [t0] or [t1] of a method: a [Time] object, or a [str]
    that holds a text of the shape above. *)
Inductive time_argument : Set :=
| TimeObject (t : Q)
| Str (x : IsoText).

(** [Transit(ingress.isot, midpoint.isot, egress.isot)]: the named tuple
    that the notebook returns. *)
Record TransitIsot : Set :=
  mkTransitIsot
    { ingress_isot : IsoText; midpoint_isot : IsoText; egress_isot : IsoText }.

(** What [in_transit] returns. *)
Inductive in_transit_isot_result : Set :=
| FlagIsot (b : bool)
| FlagTimesIsot (b : bool) (w : TransitIsot).

(** The first date of ERFA's calendar, -4799-01-01T00:00: JD -31738.5. *)
Definition erfa_first : Q := - (63477 # 2).

Section WithAstropy.

(** What [astropy.time] accepts is not in the notebook: [renders] tells
    the instants that [.isot] writes out (ERFA refuses the dates before
    [erfa_first]) and [parses] the texts that [Time] reads (the year has
    four digits). *)
Variable renders : Q -> bool.
Variable parses : IsoText -> bool.

(** [t.isot]: the text of [t] rounded to the nearest millisecond, a tie
    going up.  On a date that ERFA refuses it raises [ErfaError], a
    [ValueError]. *)
Definition isot (t : Q) : outcome IsoText :=
  if renders t then Returns (mkIsoText (Qfloor (t * ms_per_day + (1 # 2))))
  else Raises ValueError.

(** [Time(x)] for a [str] [x]: the instant named, or [ValueError]. *)
Definition Time (x : IsoText) : outcome Q :=
  if parses x then Returns (instant x) else Raises ValueError.

(** [if isinstance(t1, str): t1 = Time(t1)] *)
Definition as_Time (t1 : time_argument) : outcome Q :=
  match t1 with
  | TimeObject t => Returns t
  | Str x => Time x
  end.

(** [Transit(ingress.isot, midpoint.isot, egress.isot)], the arguments
    evaluated from left to right. *)
Definition Transit_isot (w : Transit) : outcome TransitIsot :=
  i <-- isot (ingress w) ;;
  m <-- isot (midpoint w) ;;
  e <-- isot (egress w) ;;
  Returns (mkTransitIsot i m e).

(** [in_transit(self, t1, with_times=False)]: the parse of a [str]
    argument, the body on [Time] objects, and the texts of the last window
    when [with_times] is set. *)
Definition in_transit_isot (g : module_star) (self : Exoplanet)
    (t1 : time_argument) (with_times : bool)
  : outcome in_transit_isot_result :=
  t1 <-- as_Time t1 ;;
  r <-- in_transit g self t1 with_times ;;
  match r with
  | Flag b => Returns (FlagIsot b)
  | FlagTimes b w => w <-- Transit_isot w ;; Returns (FlagTimesIsot b w)
  end.

(** The [while True] loop of [transits_in_range].  [None] means that the
    loop is still running when the fuel is spent. *)
Fixpoint transits_while_isot (fuel : nat) (transittime period_delta : Q)
    (self : Exoplanet) (t1 : Q) (num : Z) (transits : list TransitIsot)
  : option (outcome (list TransitIsot)) :=
  match fuel with
  | O => None
  | S fuel' =>
      let w := window transittime period_delta self num in
      if Qgtb (ingress w) t1 then Some (Returns transits)
      else
        match Transit_isot w with
        | Raises e => Some (Raises e)
        | Returns x =>
            transits_while_isot fuel' transittime period_delta self t1
              (num + 1)%Z (transits ++ [x])
        end
  end.

(** [transits_in_range(self, t0, t1, num_of_transits=10)]. *)
Definition transits_in_range_isot (g : module_star) (self : Exoplanet)
    (t0 t1 : time_argument) (num_of_transits : Z) (fuel : nat)
  : option (outcome (list TransitIsot)) :=
  match as_Time t0 with
  | Raises e => Some (Raises e)
  | Returns t0 =>
      match as_Time t1 with
      | Raises e => Some (Raises e)
      | Returns t1 =>
          match lookup_star g with
          | Raises e => Some (Raises e)
          | Returns s =>
              let transittime := transittime (planet s) in
              let period_delta := period (planet s) in
              match floordiv (sec (t0 - transittime)) (sec period_delta) with
              | Raises e => Some (Raises e)
              | Returns q =>
                  transits_while_isot fuel transittime period_delta self t1
                    (q - 1)%Z nil
              end
          end
      end
  end.

End WithAstropy.

(** For the examples: every instant from ERFA's first date on is written
    out, and the texts of the years 0001 to 9999 are read. *)
Definition renders_erfa (t : Q) : bool := Qle_bool erfa_first t.

(** [0001-01-01T00:00:00.000] is JD 1721425.5 and
    [10000-01-01T00:00:00.000] would be JD 5373484.5. *)
Definition year_0001 : Z := 148731163200000.
Definition year_10000 : Z := 464269060800000.

Definition parses_four_digits (x : IsoText) : bool :=
  (year_0001 <=? milliseconds x)%Z && (milliseconds x <? year_10000)%Z.

(** [2017-06-01T00:00:00.000] (JD 2457905.5) and
    [2017-06-04T00:00:00.000] (JD 2457908.5). *)
Definition june_1 : IsoText := mkIsoText 212363035200000.
Definition june_4 : IsoText := mkIsoText 212363294400000.

(** A planet in mid-transit 2^-28 day (a third of a millisecond) after
    the midnight of 2017-06-01, every 2 days, for a tenth of a
    millisecond; and the planet of the notebook, TrES-3 b, with a transit
    of 90 minutes. *)
Definition planet_ms : Exoplanet :=
  {| transittime := (4915811 # 2) + (1 # 268435456);
     period := 2;
     transit_duration := 1 # 600000 |}.
Definition star_ms : Star := {| planet := planet_ms |}.

Definition tres3b : Exoplanet :=
  {| transittime := 245535886636 # 100000;
     period := 130619 # 100000;
     transit_duration := 90 |}.
Definition tres3 : Star := {| planet := tres3b |}.

(** The list returned for [tres3b] between [june_1] and [june_4]: the
    midpoint of the third transit reads 2017-06-01T10:29:04.704. *)
Definition tres3b_june : list TransitIsot :=
  [ mkTransitIsot (mkIsoText 212362844535072) (mkIsoText 212362847235072)
      (mkIsoText 212362849935072);
    mkTransitIsot (mkIsoText 212362957389888) (mkIsoText 212362960089888)
      (mkIsoText 212362962789888);
    mkTransitIsot (mkIsoText 212363070244704) (mkIsoText 212363072944704)
      (mkIsoText 212363075644704);
    mkTransitIsot (mkIsoText 212363183099520) (mkIsoText 212363185799520)
      (mkIsoText 212363188499520) ].

(** A star whose planet has a negative period. *)
Definition star_back : Star := {| planet := mkExoplanet 0 (-2) 1440 |}.

End Isot.

(** ** Transit geometry on astropy quantities *)

Module Geometry.

Local Open Scope R_scope.

(** A numpy float: a real number, or one of [inf], [-inf] and [nan].
    Outside the real domain numpy signals a [RuntimeWarning] and returns
    a non-finite float; it raises nothing.  A non-finite operand gives a
    non-finite result in every operation below but a division by an
    infinite divisor, which [transit_duration] and [transit_depth] never
    perform: their divisors are [r_s], [a], [1 - cos(i)**2] and
    [np.pi]. *)
Inductive npfloat : Type :=
| Fin (x : R)
| NonFinite.

Definition np_lift2 (f : R -> R -> R) (a b : npfloat) : npfloat :=
  match a, b with
  | Fin x, Fin y => Fin (f x y)
  | _, _ => NonFinite
  end.

Definition np_add : npfloat -> npfloat -> npfloat := np_lift2 Rplus.
Definition np_sub : npfloat -> npfloat -> npfloat := np_lift2 Rminus.
Definition np_mul : npfloat -> npfloat -> npfloat := np_lift2 Rmult.

(** [a ** 2] *)
Definition np_pow2 (a : npfloat) : npfloat := np_mul a a.

Definition np_div (a b : npfloat) : npfloat :=
  match a, b with
  | Fin x, Fin y => if Req_dec_T y 0 then NonFinite else Fin (x / y)
  | _, _ => NonFinite
  end.

Definition np_cos (a : npfloat) : npfloat :=
  match a with
  | Fin x => Fin (cos x)
  | NonFinite => NonFinite
  end.

Definition np_sqrt (a : npfloat) : npfloat :=
  match a with
  | Fin x => if Rlt_dec x 0 then NonFinite else Fin (sqrt x)
  | NonFinite => NonFinite
  end.

Definition np_arcsin (a : npfloat) : npfloat :=
  match a with
  | Fin x =>
      if Rle_dec (-1) x
      then if Rle_dec x 1 then Fin (asin x) else NonFinite
      else NonFinite
  | NonFinite => NonFinite
  end.

(** An astropy unit: its size in the base units (metre, second, radian)
    and its exponents of length, time and angle. *)
Record Unit : Type :=
  mkUnit { scale : R; length_dim : Q; time_dim : Q; angle_dim : Q }.

Definition dimensionless_unscaled : Unit := mkUnit 1 0 0 0.
Definition radian : Unit := mkUnit 1 0 0 1.
Definition degree : Unit := mkUnit (PI / 180) 0 0 1.
Definition m : Unit := mkUnit 1 1 0 0.
Definition R_sun : Unit := mkUnit 695700000 1 0 0.
Definition R_jup : Unit := mkUnit 71492000 1 0 0.
Definition AU : Unit := mkUnit 149597870700 1 0 0.
Definition day : Unit := mkUnit 86400 0 1 0.
Definition minute : Unit := mkUnit 60 0 1 0.

Definition unit_mul (u v : Unit) : Unit :=
  mkUnit (scale u * scale v) (length_dim u + length_dim v)
    (time_dim u + time_dim v) (angle_dim u + angle_dim v).

Definition unit_div (u v : Unit) : Unit :=
  mkUnit (scale u / scale v) (length_dim u - length_dim v)
    (time_dim u - time_dim v) (angle_dim u - angle_dim v).

Definition unit_pow2 (u : Unit) : Unit :=
  mkUnit (scale u * scale u) (length_dim u * 2) (time_dim u * 2)
    (angle_dim u * 2).

Definition unit_sqrt (u : Unit) : Unit :=
  mkUnit (sqrt (scale u)) (length_dim u / 2) (time_dim u / 2)
    (angle_dim u / 2).

Definition same_dim (u v : Unit) : bool :=
  Qeq_bool (length_dim u) (length_dim v)
  && Qeq_bool (time_dim u) (time_dim v)
  && Qeq_bool (angle_dim u) (angle_dim v).

Record Quantity : Type := mkQuantity { value : npfloat; unit : Unit }.

(** [x * u] for a float [x] and a unit [u] *)
Definition quantity (x : R) (u : Unit) : Quantity := mkQuantity (Fin x) u.

(** [q.to(u)] *)
Definition to (q : Quantity) (u : Unit) : outcome Quantity :=
  if same_dim (unit q) u
  then Returns (mkQuantity (np_mul (value q) (Fin (scale (unit q) / scale u))) u)
  else Raises UnitConversionError.

(** [q1 * q2] and [q1 / q2]: the units are combined, nothing is
    converted. *)
Definition quantity_mul (q1 q2 : Quantity) : Quantity :=
  mkQuantity (np_mul (value q1) (value q2)) (unit_mul (unit q1) (unit q2)).

Definition quantity_div (q1 q2 : Quantity) : Quantity :=
  mkQuantity (np_div (value q1) (value q2)) (unit_div (unit q1) (unit q2)).

(** [q ** 2] *)
Definition quantity_pow2 (q : Quantity) : Quantity :=
  mkQuantity (np_pow2 (value q)) (unit_pow2 (unit q)).

(** [q / x] and [q * x] for a float [x] *)
Definition quantity_div_float (q : Quantity) (x : npfloat) : Quantity :=
  mkQuantity (np_div (value q) x) (unit q).

Definition quantity_mul_float (q : Quantity) (x : npfloat) : Quantity :=
  mkQuantity (np_mul (value q) x) (unit q).

(** [x + q] and [x - q] for a float [x]: [q] is converted to the
    dimensionless unit first. *)
Definition float_add (x : R) (q : Quantity) : outcome Quantity :=
  q' <-- to q dimensionless_unscaled ;;
  Returns (mkQuantity (np_add (Fin x) (value q')) dimensionless_unscaled).

Definition float_sub (x : R) (q : Quantity) : outcome Quantity :=
  q' <-- to q dimensionless_unscaled ;;
  Returns (mkQuantity (np_sub (Fin x) (value q')) dimensionless_unscaled).

(** [q1 - q2]: [q2] is converted to the unit of [q1]. *)
Definition quantity_sub (q1 q2 : Quantity) : outcome Quantity :=
  q2' <-- to q2 (unit q1) ;;
  Returns (mkQuantity (np_sub (value q1) (value q2')) (unit q1)).

(** [np.cos(q)]: the angle is converted to radians. *)
Definition quantity_cos (q : Quantity) : outcome Quantity :=
  q' <-- to q radian ;;
  Returns (mkQuantity (np_cos (value q')) dimensionless_unscaled).

(** [np.sqrt(q)] *)
Definition quantity_sqrt (q : Quantity) : Quantity :=
  mkQuantity (np_sqrt (value q)) (unit_sqrt (unit q)).

(** [np.arcsin(q)]: the argument is converted to the dimensionless unit;
    the result is in radians. *)
Definition quantity_arcsin (q : Quantity) : outcome Quantity :=
  q' <-- to q dimensionless_unscaled ;;
  Returns (mkQuantity (np_arcsin (value q')) radian).

(** *** The objects *)

Module Star.
(** [radius], in solar radii; [None] when the catalogue entry has no
    such element. *)
Record t : Type := mk { radius : option R }.
End Star.

(** The attributes that [transit_duration] and [transit_depth] read, and
    their caches.  A catalogue field is [None] when the attribute was
    never set. *)
Record Exoplanet : Type :=
  mkExoplanet {
      inclination : option R;
      period : option R;
      semimajoraxis : option R;
      radius : option R;
      star : option Star.t;
      _transit_duration : option npfloat;
      _transit_depth : option Quantity }.

Definition getattr {A : Type} (field : option A) : outcome A :=
  match field with
  | Some x => Returns x
  | None => Raises AttributeError
  end.

Definition set_transit_duration (self : Exoplanet) (d : npfloat) : Exoplanet :=
  mkExoplanet (inclination self) (period self) (semimajoraxis self)
    (radius self) (star self) (Some d) (_transit_depth self).

Definition set_transit_depth (self : Exoplanet) (q : Quantity) : Exoplanet :=
  mkExoplanet (inclination self) (period self) (semimajoraxis self)
    (radius self) (star self) (_transit_duration self) (Some q).

(** The expression assigned to [self._transit_duration]. *)
Definition duration_expression (i r_s r_p period a : Quantity)
  : outcome npfloat :=
  let period_over_pi := quantity_div_float period (Fin PI) in
  let rs_over_a := quantity_div r_s a in
  one_plus <-- float_add 1 (quantity_div r_p r_s) ;;
  cos_i <-- quantity_cos i ;;
  difference <--
    quantity_sub (quantity_pow2 one_plus)
      (quantity_pow2 (quantity_mul (quantity_div a r_s) cos_i)) ;;
  cos_i' <-- quantity_cos i ;;
  denominator <-- float_sub 1 (quantity_pow2 cos_i') ;;
  let root := quantity_sqrt (quantity_div difference denominator) in
  angle <-- quantity_arcsin (quantity_mul rs_over_a root) ;;
  minutes <-- to (quantity_mul_float period_over_pi (value angle)) minute ;;
  Returns (value minutes).

(** The property [transit_duration]: the value and the instance with its
    cache filled. *)
Definition transit_duration (self : Exoplanet)
  : outcome (npfloat * Exoplanet) :=
  match _transit_duration self with
  | Some d => Returns (d, self)
  | None =>
      inclination <-- getattr (inclination self) ;;
      let i := quantity inclination degree in
      s <-- getattr (star self) ;;
      star_radius <-- getattr (Star.radius s) ;;
      let r_s := quantity star_radius R_sun in
      radius <-- getattr (radius self) ;;
      let r_p := quantity radius R_jup in
      period <-- getattr (period self) ;;
      let period := quantity period day in
      semimajoraxis <-- getattr (semimajoraxis self) ;;
      let a := quantity semimajoraxis AU in
      d <-- duration_expression i r_s r_p period a ;;
      Returns (d, set_transit_duration self d)
  end.

(** The property [transit_depth]. *)
Definition transit_depth (self : Exoplanet)
  : outcome (Quantity * Exoplanet) :=
  match _transit_depth self with
  | Some q => Returns (q, self)
  | None =>
      s <-- getattr (star self) ;;
      star_radius <-- getattr (Star.radius s) ;;
      r_s <-- to (quantity star_radius R_sun) m ;;
      radius <-- getattr (radius self) ;;
      r_p <-- to (quantity radius R_jup) m ;;
      let q := quantity_pow2 (quantity_div r_p r_s) in
      Returns (q, set_transit_depth self q)
  end.

(** *** The formulas in the words of the specification *)

(** Lengths in metres and the inclination in radians. *)
Definition metres (x : R) (u : Unit) : R := x * scale u.
Definition radians (degrees : R) : R := degrees * (PI / 180).
Definition minutes_of_days (days : R) : R := days * 1440.

(** The argument of the arcsine and its parts. *)
Definition denominator (i : R) : R := 1 - (cos i) ^ 2.

Definition radicand (Rs Rp A i : R) : R :=
  ((1 + Rp / Rs) ^ 2 - ((A / Rs) * cos i) ^ 2) / denominator i.

Definition arcsin_argument (Rs Rp A i : R) : R :=
  (Rs / A) * sqrt (radicand Rs Rp A i).

(** duration = (period/pi) arcsin[(R_star/a) sqrt(((1 + R_planet/R_star)^2
    - ((a/R_star) cos i)^2) / (1 - cos^2 i))] *)
Definition duration_formula (P Rs Rp A i : R) : R :=
  (P / PI) * asin (arcsin_argument Rs Rp A i).

Definition depth_formula (Rs Rp : R) : R := (Rp / Rs) ^ 2.

(** Where the formula is defined over the reals. *)
Definition in_domain (Rs Rp A i : R) : Prop :=
  Rs <> 0 /\ A <> 0 /\ denominator i <> 0
  /\ 0 <= radicand Rs Rp A i
  /\ -1 <= arcsin_argument Rs Rp A i <= 1.

(** The same formula evaluated with the numpy operations, in days. *)
Definition duration_np (P Rs Rp A i : R) : npfloat :=
  np_mul (np_div (Fin P) (Fin PI))
    (np_arcsin
       (np_mul (np_div (Fin Rs) (Fin A))
          (np_sqrt
             (np_div
                (np_sub
                   (np_pow2 (np_add (Fin 1) (np_div (Fin Rp) (Fin Rs))))
                   (np_pow2 (np_mul (np_div (Fin A) (Fin Rs)) (np_cos (Fin i)))))
                (np_sub (Fin 1) (np_pow2 (np_cos (Fin i)))))))).

(** A planet read from the catalogue, its caches empty. *)
Definition fresh (inc per sma rp rs : R) : Exoplanet :=
  mkExoplanet (Some inc) (Some per) (Some sma) (Some rp)
    (Some (Star.mk (Some rs))) None None.

(** Two planets for the examples, 1 Jupiter radius at 1 AU from a star
    of 1 solar radius with a period of 1 day: seen edge-on (90 degrees)
    and face-on (0 degrees). *)
Definition edge_on : Exoplanet := fresh 90 1 1 1 1.
Definition face_on : Exoplanet := fresh 0 1 1 1 1.

End Geometry.

(** ** The impact parameter *)

Module Impact.

Import Geometry.
Local Open Scope R_scope.

(** The property [b].  The record of [Geometry] carries the caches of the
    other two properties; the cache [_b] is passed beside it, and returned
    as the property leaves it. *)
Definition b (self : Exoplanet) (_b : option Quantity)
  : outcome (Quantity * option Quantity) :=
  match _b with
  | Some q => Returns (q, _b)
  | None =>
      semimajoraxis <-- getattr (semimajoraxis self) ;;
      a <-- to (quantity semimajoraxis AU) m ;;
      s <-- getattr (star self) ;;
      star_radius <-- getattr (Star.radius s) ;;
      r_s <-- to (quantity star_radius R_sun) m ;;
      inclination <-- getattr (inclination self) ;;
      let i := quantity inclination degree in
      cos_i <-- quantity_cos i ;;
      let q := quantity_mul (quantity_div a r_s) cos_i in
      Returns (q, Some q)
  end.

(** The property [impact_parameter]: [return self.b]. *)
Definition impact_parameter (self : Exoplanet) (_b : option Quantity)
  : outcome (Quantity * option Quantity) :=
  b self _b.

(** (a / R_star) cos i, on lengths in metres and the angle in radians. *)
Definition impact_formula (Rs A i : R) : R := A / Rs * cos i.

(** Two more planets for the examples: the planet of [edge_on] seen at 60
    degrees, and an instance whose catalogue entry has no inclination. *)
Definition tilted : Exoplanet := fresh 60 1 1 1 1.

Definition no_inclination : Exoplanet :=
  mkExoplanet None (Some 1) (Some 1) (Some 1) (Some (Star.mk (Some 1)))
    None None.

End Impact.

(** ** The list [names] of an instance *)

Module Construct.

Import Bag.
Local Open Scope string_scope.

Section WithFloat.

Context {F : Type}.

(** The attribute [names] no longer holds a list. *)
Definition names_lost (self : gmap string (pyval F)) : Prop :=
  match self !! "names" with
  | Some (PList _) => False
  | _ => True
  end.

End WithFloat.

Definition is_name (e : Element) : bool := String.eqb (tag e) "name".

End Construct.

(** * Facts *)

Section TimingFacts.

Import Timing.
Local Open Scope Q_scope.

Example in_transit_a_mid :
  in_transit (Some star_a) planet_a 4 false = Returns (Flag true).
Proof. reflexivity. Qed.

Example in_transit_a_out :
  in_transit (Some star_a) planet_a 1 true
  = Returns (FlagTimes false (mkTransit (2 - 1440 / 2 / 1440) 2 (2 + 1440 / 2 / 1440))).
Proof. vm_compute. reflexivity. Qed.

End TimingFacts.

Section BagFacts.

Import Bag.
Local Open Scope string_scope.

Context {F : Type}.
Variable py_float : string -> option F.
Variable cls : pyclass.

Example object_of_fresh_bag : object_of fresh_bag = OEC_init.
Proof. reflexivity. Qed.

(** On an [Exoplanet] the tag "b" names a property without setter: a
    float is dropped, a text that is no float ends the build. *)
Example build_properties_property_tag :
  (self <-- _build_properties read_decimal Exoplanet_class (object_of fresh_bag)
              [mkElement "b" (Some "0.5")] ;;
   Returns (self !! "b")) = Returns None
  /\ _build_properties read_decimal Exoplanet_class (object_of fresh_bag)
       [mkElement "b" (Some "grazing")] = Raises AttributeError.
Proof. split; vm_compute; reflexivity. Qed.

Lemma object_of_names (b : bag F) :
  object_of b !! "names" = Some (PList (aliases b)).
Proof. unfold object_of. apply lookup_insert_eq. Qed.

Lemma name_object_of (b : bag F) : name (object_of b) = name_spec b.
Proof. unfold name, name_spec. rewrite object_of_names. reflexivity. Qed.

Lemma setattr_object_of (b : bag F) (k : string) (v : pyval F) :
  k <> "names" -> refuses cls k = None ->
  setattr cls (object_of b) k v
  = Returns (object_of {| aliases := aliases b; fields := <[k := v]> (fields b) |}).
Proof.
  intros Hk Hr. unfold setattr. rewrite Hr. f_equal.
  unfold object_of. cbn [aliases fields].
  apply insert_insert_ne. exact Hk.
Qed.

Lemma build_step_plain (b : bag F) (elem : Element) :
  plain_tag cls elem ->
  build_step py_float cls (object_of b) elem
  = Returns (object_of (build_spec_step py_float b elem)).
Proof.
  intros Hplain. unfold build_step, build_spec_step.
  destruct (String.eqb (tag elem) "name") eqn:E; cbn [negb].
  - unfold names_append. rewrite object_of_names. f_equal.
    unfold object_of. cbn [aliases fields]. apply insert_insert_eq.
  - unfold float. destruct (text elem) as [s|] eqn:Et; cbn [Py.bind].
    + destruct Hplain as [Hname|[Hnone|[Hk Hr]]].
      { apply String.eqb_neq in E. contradiction. }
      { rewrite Et in Hnone. discriminate. }
      destruct (py_float s) as [x|]; cbn [Py.bind text_value].
      * rewrite (setattr_object_of b _ _ Hk Hr). reflexivity.
      * apply (setattr_object_of b _ _ Hk Hr).
    + destruct b; reflexivity.
Qed.

Lemma build_properties_plain (element : list Element) :
  forall b : bag F,
    Forall (plain_tag cls) element ->
    _build_properties py_float cls (object_of b) element
    = Returns (object_of (build_spec py_float b element)).
Proof.
  induction element as [|elem rest IH]; intros b Hall; [reflexivity|].
  inversion Hall as [|? ? Helem Hrest]; subst.
  cbn [_build_properties]. rewrite (build_step_plain b elem Helem).
  cbn [Py.bind]. rewrite (IH _ Hrest). reflexivity.
Qed.

(** The aliases after the build: those before it, then the texts of the
    "name" elements in their order. *)
Lemma aliases_build_spec (element : list Element) :
  forall b : bag F,
    aliases (build_spec py_float b element)
    = (aliases b
       ++ map text (List.filter (fun e => String.eqb (tag e) "name") element))%list.
Proof.
  induction element as [|elem rest IH]; intros b; cbn [build_spec fold_left].
  - cbn. now rewrite app_nil_r.
  - fold (build_spec py_float (build_spec_step py_float b elem) rest).
    rewrite IH. unfold build_spec_step. cbn [List.filter].
    destruct (String.eqb (tag elem) "name"); cbn [aliases map].
    + now rewrite <- app_assoc.
    + destruct (text elem) as [s|]; [|reflexivity].
      destruct (py_float s); reflexivity.
Qed.

End BagFacts.

(** ** Facts on the timing methods *)

Section TimingLemmas.

Import Timing.
Local Open Scope Q_scope.

Lemma Qle_bool_true (x y : Q) : Qle_bool x y = true <-> x <= y.
Proof. apply Qle_bool_iff. Qed.

Lemma Qle_bool_false (x y : Q) : Qle_bool x y = false <-> y < x.
Proof.
  split; intros H.
  - apply Qnot_le_lt. intros Hle. apply Qle_bool_iff in Hle. congruence.
  - destruct (Qle_bool x y) eqn:E; [|reflexivity].
    apply Qle_bool_iff in E. exfalso. apply (Qlt_not_le _ _ H E).
Qed.

Lemma Qgtb_true (a b : Q) : Qgtb a b = true <-> b < a.
Proof.
  unfold Qgtb. rewrite Bool.negb_true_iff. apply Qle_bool_false.
Qed.

Lemma Qgtb_false (a b : Q) : Qgtb a b = false <-> a <= b.
Proof.
  unfold Qgtb. rewrite Bool.negb_false_iff. apply Qle_bool_true.
Qed.

Lemma inside_true (t1 : Q) (w : Transit) :
  inside t1 w = true <-> ingress w <= t1 /\ t1 <= egress w.
Proof.
  unfold inside. rewrite Bool.andb_true_iff, !Qle_bool_true. tauto.
Qed.

(** [a // b] in seconds is the floor of the quotient in days. *)
Lemma floordiv_sec (x p : Q) :
  ~ p == 0 -> floordiv (sec x) (sec p) = Returns (Qfloor (x / p)).
Proof.
  intros Hp. unfold floordiv, sec.
  destruct (Qeq_bool (p * 86400) 0) eqn:E.
  - apply Qeq_bool_iff in E. exfalso. apply Hp. lra.
  - f_equal. apply Qfloor_comp. field. exact Hp.
Qed.

Lemma floordiv_zero (x p : Q) :
  p == 0 -> exists e, floordiv (sec x) (sec p) = Raises e.
Proof.
  intros Hp. unfold floordiv, sec.
  destruct (Qeq_bool (p * 86400) 0) eqn:E.
  - destruct (Qeq_bool (x * 86400) 0); eexists; reflexivity.
  - apply Qeq_bool_neq in E. exfalso. apply E. lra.
Qed.

Lemma floordiv_returns (a b : Q) (q : Z) :
  floordiv a b = Returns q -> ~ b == 0.
Proof.
  unfold floordiv. destruct (Qeq_bool b 0) eqn:E.
  - destruct (Qeq_bool a 0); discriminate.
  - intros _. apply Qeq_bool_neq. exact E.
Qed.

Lemma inject_Z_succ (n : Z) : inject_Z (n + 1) == inject_Z n + 1.
Proof. rewrite inject_Z_plus. reflexivity. Qed.

Lemma window_midpoint (T P : Q) (self : Exoplanet) (n : Z) :
  midpoint (window T P self n) = T + inject_Z n * P.
Proof. reflexivity. Qed.

Lemma window_ingress (T P : Q) (self : Exoplanet) (n : Z) :
  ingress (window T P self n) = T + inject_Z n * P - half_duration self.
Proof. reflexivity. Qed.

Lemma window_egress (T P : Q) (self : Exoplanet) (n : Z) :
  egress (window T P self n) = T + inject_Z n * P + half_duration self.
Proof. reflexivity. Qed.

(** Consecutive windows are one period apart. *)
Lemma window_succ_midpoint (T P : Q) (self : Exoplanet) (n : Z) :
  midpoint (window T P self (n + 1)) == midpoint (window T P self n) + P.
Proof. rewrite !window_midpoint, inject_Z_succ. ring. Qed.

Lemma half_duration_scale (self : Exoplanet) :
  half_duration self == transit_duration self * (1 # 2880).
Proof. unfold half_duration. field. Qed.

Lemma half_duration_nonneg (self : Exoplanet) :
  0 <= transit_duration self -> 0 <= half_duration self.
Proof. intros H. rewrite half_duration_scale. lra. Qed.

Lemma inject_Z_mult_le (n m : Z) (P : Q) :
  0 < P -> (n <= m)%Z -> inject_Z n * P <= inject_Z m * P.
Proof.
  intros HP Hnm. apply Qmult_le_compat_r; [|lra].
  rewrite <- Zle_Qle. exact Hnm.
Qed.

Lemma floor_bounds (x P : Q) :
  0 < P ->
  inject_Z (Qfloor (x / P)) * P <= x /\ x < inject_Z (Qfloor (x / P) + 1) * P.
Proof.
  intros HP. split.
  - assert (H := Qfloor_le (x / P)).
    apply (Qmult_le_compat_r _ _ P) in H; [|lra].
    assert (E : x / P * P == x) by (field; lra). lra.
  - assert (H := Qlt_floor (x / P)).
    apply (Qmult_lt_compat_r _ _ P) in H; [|lra].
    assert (E : x / P * P == x) by (field; lra). lra.
Qed.

Lemma midpoint_index (T P : Q) (n : Z) :
  ~ P == 0 -> Qfloor ((T + inject_Z n * P - T) / P) = n.
Proof.
  intros HP. rewrite <- (Qfloor_Z n) at 2.
  apply Qfloor_comp. field. exact HP.
Qed.

End TimingLemmas.

Section InTransitFacts.

Import Timing.
Local Open Scope Q_scope.

(** What [in_transit] computes when the module-level [star] is bound and
    its planet has a non-zero period: the test on the window of index
    [num], then on the window of index [num + 1]. *)
Lemma in_transit_flag (s : Star) (self : Exoplanet) (t1 : Q) :
  ~ period (planet s) == 0 ->
  let T := transittime (planet s) in
  let P := period (planet s) in
  let num := Qfloor ((t1 - T) / P) in
  in_transit (Some s) self t1 false
  = Returns (Flag (inside t1 (window T P self num)
                   || inside t1 (window T P self (num + 1)))).
Proof.
  intros HP T P num. unfold in_transit. cbn [lookup_star Py.bind].
  rewrite (floordiv_sec _ _ HP). cbn [Py.bind range2 in_transit_for].
  fold T P num.
  destruct (inside t1 (window T P self num)); [reflexivity|].
  destruct (inside t1 (window T P self (num + 1))); reflexivity.
Qed.

Lemma in_transit_unbound (self : Exoplanet) (t1 : Q) (with_times : bool) :
  in_transit None self t1 with_times = Raises NameError.
Proof. reflexivity. Qed.

(** With the module-level [star] bound to [s], [in_transit] holds on
    every closed window of the planet of [s]. *)
Lemma in_transit_covers (s : Star) (self : Exoplanet) (t : Q) (n : Z) :
  0 < period (planet s) ->
  0 <= transit_duration self ->
  let w := window (transittime (planet s)) (period (planet s)) self n in
  ingress w <= t -> t <= egress w ->
  in_transit (Some s) self t false = Returns (Flag true).
Proof.
  intros HP Hd w Hin Heg.
  rewrite in_transit_flag by lra. do 2 f_equal.
  set (T := transittime (planet s)) in *. set (P := period (planet s)) in *.
  set (m := Qfloor ((t - T) / P)).
  assert (Hh := half_duration_nonneg self Hd).
  destruct (floor_bounds (t - T) P HP) as [Hlo Hhi]. fold m in Hlo, Hhi.
  subst w. rewrite window_ingress in Hin. rewrite window_egress in Heg.
  destruct (inside t (window T P self m)) eqn:E1; [reflexivity|].
  cbn [orb]. apply inside_true.
  rewrite window_ingress, window_egress.
  assert (Hnm : (m + 1 <= n)%Z).
  { destruct (Z_lt_le_dec n (m + 1)) as [Hlt|Hge]; [|exact Hge].
    exfalso.
    assert (Hle : (n <= m)%Z) by lia.
    assert (H1 := inject_Z_mult_le n m P HP Hle).
    assert (E2 : inside t (window T P self m) = true).
    { apply inside_true. rewrite window_ingress, window_egress. lra. }
    congruence. }
  assert (H2 := inject_Z_mult_le (m + 1) n P HP Hnm).
  lra.
Qed.

(** The midpoint of any window of index [n] passes [in_transit]. *)
Lemma in_transit_midpoint (s : Star) (self : Exoplanet) (n : Z) :
  ~ period (planet s) == 0 ->
  0 <= transit_duration self ->
  in_transit (Some s) self
    (midpoint (window (transittime (planet s)) (period (planet s)) self n))
    false
  = Returns (Flag true).
Proof.
  intros HP Hd. rewrite in_transit_flag by exact HP. do 2 f_equal.
  rewrite window_midpoint, (midpoint_index _ _ _ HP).
  assert (Hh := half_duration_nonneg self Hd).
  assert (E : inside
                (transittime (planet s) + inject_Z n * period (planet s))
                (window (transittime (planet s)) (period (planet s)) self n)
              = true).
  { apply inside_true. rewrite window_ingress, window_egress. lra. }
  rewrite E. reflexivity.
Qed.

End InTransitFacts.

Section TransitsInRangeFacts.

Import Timing.
Local Open Scope Q_scope.

Lemma indices_length (n0 : Z) (k : nat) : length (indices n0 k) = k.
Proof.
  revert n0. induction k as [|k IH]; intros n0; cbn; [reflexivity|].
  now rewrite IH.
Qed.

Lemma indices_In (n0 : Z) (k : nat) (n : Z) :
  In n (indices n0 k) <-> (n0 <= n < n0 + Z.of_nat k)%Z.
Proof.
  revert n0. induction k as [|k IH]; intros n0; cbn [indices In].
  - lia.
  - rewrite IH. lia.
Qed.

(** Whatever the loop returns is its accumulator followed by windows of
    consecutive indices, all entered no later than [t1], and the window
    after them is entered later than [t1]. *)
Lemma transits_while_returns (T P : Q) (self : Exoplanet) (t1 : Q) :
  forall (fuel : nat) (num : Z) (acc ws : list Transit),
    transits_while fuel T P self t1 num acc = Some ws ->
    exists k : nat,
      ws = acc ++ map (window T P self) (indices num k)
      /\ (forall n, In n (indices num k) -> ingress (window T P self n) <= t1)
      /\ t1 < ingress (window T P self (num + Z.of_nat k)).
Proof.
  induction fuel as [|fuel IH]; intros num acc ws H; [discriminate|].
  cbn [transits_while] in H.
  destruct (Qgtb (ingress (window T P self num)) t1) eqn:E.
  - injection H as <-. exists 0%nat. cbn [indices map].
    rewrite app_nil_r, Z.add_0_r. apply Qgtb_true in E.
    split; [reflexivity|]. split; [intros n []|exact E].
  - apply IH in H. destruct H as (k & -> & Hall & Hstop).
    exists (S k). cbn [indices map]. rewrite <- app_assoc. cbn [app].
    split; [reflexivity|]. split.
    + intros n [<-|Hn]; [apply Qgtb_false; exact E|apply Hall; exact Hn].
    + replace (num + Z.of_nat (S k))%Z with (num + 1 + Z.of_nat k)%Z by lia.
      exact Hstop.
Qed.

Lemma ingress_le_iff (T P : Q) (self : Exoplanet) (t1 : Q) (n : Z) :
  0 < P ->
  ingress (window T P self n) <= t1 <-> (n <= last_index T P self t1)%Z.
Proof.
  intros HP. unfold last_index. rewrite window_ingress.
  destruct (floor_bounds (t1 + half_duration self - T) P HP) as [Hlo Hhi].
  set (L := Qfloor ((t1 + half_duration self - T) / P)) in *.
  split; intros H.
  - destruct (Z_lt_le_dec L n) as [Hlt|Hle]; [|exact Hle]. exfalso.
    assert (Hle : (L + 1 <= n)%Z) by lia.
    assert (H1 := inject_Z_mult_le (L + 1) n P HP Hle). lra.
  - assert (H1 := inject_Z_mult_le n L P HP H). lra.
Qed.

(** With a positive period the loop ends: any fuel above the number of
    windows to emit gives the same list. *)
Lemma transits_while_runs (T P : Q) (self : Exoplanet) (t1 : Q) :
  0 < P ->
  forall (c : nat) (num : Z) (acc : list Transit) (fuel : nat),
    Z.to_nat (last_index T P self t1 + 1 - num) = c ->
    (c < fuel)%nat ->
    transits_while fuel T P self t1 num acc
    = Some (acc ++ map (window T P self) (indices num c)).
Proof.
  intros HP. induction c as [|c IH]; intros num acc fuel Hc Hfuel.
  - destruct fuel as [|fuel]; [lia|]. cbn [transits_while indices map].
    assert (E : Qgtb (ingress (window T P self num)) t1 = true).
    { apply Qgtb_true. apply Qnot_le_lt. intros Hle.
      apply (ingress_le_iff T P self t1 num HP) in Hle. lia. }
    rewrite E, app_nil_r. reflexivity.
  - destruct fuel as [|fuel]; [lia|]. cbn [transits_while indices map].
    assert (E : Qgtb (ingress (window T P self num)) t1 = false).
    { apply Qgtb_false. apply (ingress_le_iff T P self t1 num HP). lia. }
    rewrite E. rewrite (IH (num + 1)%Z _ fuel) by lia.
    rewrite <- app_assoc. reflexivity.
Qed.

(** [transits_in_range] when the module-level [star] is bound to [s] and
    the period of its planet is positive: the windows of the planet of
    [s], from the index one below that of [t0], as long as they are
    entered no later than [t1]. *)
Lemma transits_in_range_of_star (s : Star) (self : Exoplanet) (t0 t1 : Q)
    (k : Z) :
  0 < period (planet s) ->
  let T := transittime (planet s) in
  let P := period (planet s) in
  let n0 := (Qfloor ((t0 - T) / P) - 1)%Z in
  exists count : nat,
    (forall fuel, (count < fuel)%nat ->
       transits_in_range (Some s) self t0 t1 k fuel
       = Some (Returns (map (window T P self) (indices n0 count))))
    /\ (forall n, (n0 <= n)%Z ->
          ingress (window T P self n) <= t1 <-> (n < n0 + Z.of_nat count)%Z).
Proof.
  intros HP T P n0.
  exists (Z.to_nat (last_index T P self t1 + 1 - n0)). split.
  - intros fuel Hfuel. unfold transits_in_range. cbn [lookup_star].
    rewrite floordiv_sec by lra. fold T P n0.
    rewrite (transits_while_runs T P self t1 HP _ n0 nil fuel eq_refl Hfuel).
    reflexivity.
  - intros n Hn. rewrite (ingress_le_iff T P self t1 n HP). lia.
Qed.

(** With [star] bound to a star whose planet has a positive period the
    call returns: there is a list that every large enough fuel gives. *)
Lemma transits_in_range_terminates (s : Star) (self : Exoplanet) (t0 t1 : Q)
    (k : Z) :
  0 < period (planet s) ->
  exists (fuel0 : nat) (ws : list Transit),
    forall fuel, (fuel0 <= fuel)%nat ->
      transits_in_range (Some s) self t0 t1 k fuel = Some (Returns ws).
Proof.
  intros HP.
  destruct (transits_in_range_of_star s self t0 t1 k HP) as (count & Hrun & _).
  exists (S count). eexists. intros fuel Hfuel. apply Hrun. lia.
Qed.

End TransitsInRangeFacts.

Section TimingMore.

Import Timing.
Local Open Scope Q_scope.

Lemma floor_bounds_negative (x P : Q) :
  P < 0 ->
  x <= inject_Z (Qfloor (x / P)) * P /\ inject_Z (Qfloor (x / P) + 1) * P < x.
Proof.
  intros HP.
  assert (E : x / P * P == x) by (field; lra).
  assert (Hlo := Qfloor_le (x / P)). assert (Hhi := Qlt_floor (x / P)).
  set (m := Qfloor (x / P)) in *.
  assert (HnP : 0 < - P) by lra.
  split.
  - apply (Qmult_le_compat_r _ _ (- P)) in Hlo; [|lra]. lra.
  - apply (Qmult_lt_compat_r _ _ (- P)) in Hhi; [|lra]. lra.
Qed.

Lemma inject_Z_mult_ge (n m : Z) (P : Q) :
  P < 0 -> (n <= m)%Z -> inject_Z m * P <= inject_Z n * P.
Proof.
  intros HP Hnm.
  assert (H : inject_Z n * (- P) <= inject_Z m * (- P)).
  { apply Qmult_le_compat_r; [|lra]. rewrite <- Zle_Qle. exact Hnm. }
  lra.
Qed.

(** The two windows that [in_transit] tests decide membership in any
    window, for a period of either sign. *)
Lemma two_windows_decide (T P : Q) (self : Exoplanet) (t : Q) :
  ~ P == 0 ->
  let num := Qfloor ((t - T) / P) in
  inside t (window T P self num) || inside t (window T P self (num + 1)) = true
  <-> exists n : Z,
        ingress (window T P self n) <= t /\ t <= egress (window T P self n).
Proof.
  intros HP num. split.
  - intros H. apply Bool.orb_true_iff in H.
    destruct H as [H|H]; apply inside_true in H; eauto.
  - intros (n & Hin & Heg). apply Bool.orb_true_iff.
    rewrite !inside_true, !window_ingress, !window_egress.
    rewrite window_ingress in Hin. rewrite window_egress in Heg.
    destruct (Q_dec P 0) as [[Hneg|Hpos]|Hz]; [| |contradiction].
    + destruct (floor_bounds_negative (t - T) P Hneg) as [Hlo Hhi].
      fold num in Hlo, Hhi.
      destruct (Z_lt_le_dec num n) as [Hlt|Hle].
      * right. assert (H1 := inject_Z_mult_ge (num + 1) n P Hneg ltac:(lia)).
        lra.
      * left. assert (H1 := inject_Z_mult_ge n num P Hneg Hle). lra.
    + destruct (floor_bounds (t - T) P Hpos) as [Hlo Hhi].
      fold num in Hlo, Hhi.
      destruct (Z_lt_le_dec num n) as [Hlt|Hle].
      * right. assert (H1 := inject_Z_mult_le (num + 1) n P Hpos ltac:(lia)).
        lra.
      * left. assert (H1 := inject_Z_mult_le n num P Hpos Hle). lra.
Qed.

Lemma in_transit_with_times_value (s : Star) (self : Exoplanet) (t1 : Q) :
  ~ period (planet s) == 0 ->
  let T := transittime (planet s) in
  let P := period (planet s) in
  let num := Qfloor ((t1 - T) / P) in
  in_transit (Some s) self t1 true
  = Returns
      (if inside t1 (window T P self num)
       then FlagTimes true (window T P self num)
       else FlagTimes (inside t1 (window T P self (num + 1)))
              (window T P self (num + 1))).
Proof.
  intros HP T P num. unfold in_transit. cbn [lookup_star Py.bind].
  rewrite (floordiv_sec _ _ HP). cbn [Py.bind range2 in_transit_for].
  fold T P num.
  destruct (inside t1 (window T P self num)); [reflexivity|].
  destruct (inside t1 (window T P self (num + 1))); reflexivity.
Qed.

Lemma inject_Z_sub (n k : Z) : inject_Z (n - k) == inject_Z n - inject_Z k.
Proof.
  unfold Z.sub. rewrite inject_Z_plus, inject_Z_opp. ring.
Qed.

Lemma some_window_shift (T P : Q) (self : Exoplanet) (t : Q) (k : Z) :
  (exists n : Z,
     ingress (window T P self n) <= t + inject_Z k * P
     /\ t + inject_Z k * P <= egress (window T P self n))
  <-> (exists n : Z,
         ingress (window T P self n) <= t /\ t <= egress (window T P self n)).
Proof.
  split; intros (n & Hin & Heg);
    rewrite window_ingress in Hin; rewrite window_egress in Heg.
  - exists (n - k)%Z. rewrite window_ingress, window_egress.
    assert (E := inject_Z_sub n k).
    assert (E' : inject_Z (n - k) * P == inject_Z n * P - inject_Z k * P)
      by (rewrite E; ring).
    lra.
  - exists (n + k)%Z. rewrite window_ingress, window_egress.
    assert (E' : inject_Z (n + k) * P == inject_Z n * P + inject_Z k * P)
      by (rewrite inject_Z_plus; ring).
    lra.
Qed.


Lemma indices_app (n0 : Z) (k j : nat) :
  indices n0 (k + j) = (indices n0 k ++ indices (n0 + Z.of_nat k) j)%list.
Proof.
  revert n0. induction k as [|k IH]; intros n0.
  - cbn. now rewrite Z.add_0_r.
  - cbn [Nat.add indices app]. rewrite IH. do 3 f_equal. lia.
Qed.

(** The shape of any list that [transits_in_range] returns. *)
Lemma transits_in_range_returns_shape (s : Star) (self : Exoplanet)
    (t0 t1 : Q) (k : Z) (fuel : nat) (ws : list Transit) :
  transits_in_range (Some s) self t0 t1 k fuel = Some (Returns ws) ->
  let T := transittime (planet s) in
  let P := period (planet s) in
  let n0 := (Qfloor ((t0 - T) / P) - 1)%Z in
  ~ P == 0
  /\ exists count : nat,
       ws = map (window T P self) (indices n0 count)
       /\ (forall n, In n (indices n0 count) ->
                     ingress (window T P self n) <= t1)
       /\ t1 < ingress (window T P self (n0 + Z.of_nat count)).
Proof.
  intros Hrun T P n0. unfold transits_in_range in Hrun.
  cbn [lookup_star] in Hrun. fold T P in Hrun.
  destruct (Qeq_dec P 0) as [Hz|HP].
  { destruct (floordiv_zero (t0 - T) P Hz) as [e He].
    rewrite He in Hrun. discriminate. }
  split; [exact HP|].
  rewrite (floordiv_sec _ _ HP) in Hrun. fold n0 in Hrun.
  destruct (transits_while fuel T P self t1 n0 nil) as [l|] eqn:El;
    [|discriminate].
  injection Hrun as <-.
  apply transits_while_returns in El. exact El.
Qed.

End TimingMore.

(** ** Facts on the texts *)

Section IsotFacts.

Import Timing Isot.
Local Open Scope Q_scope.

(** The text written for an instant names an instant at most half a
    millisecond away. *)
Lemma instant_rounded (t : Q) :
  let x := mkIsoText (Qfloor (t * ms_per_day + (1 # 2))) in
  t - (1 # 172800000) < instant x /\ instant x <= t + (1 # 172800000).
Proof.
  intros x. unfold x, instant. cbn [milliseconds].
  assert (Hlo := Qfloor_le (t * ms_per_day + (1 # 2))).
  assert (Hhi := Qlt_floor (t * ms_per_day + (1 # 2))).
  rewrite inject_Z_succ in Hhi.
  set (r := inject_Z (Qfloor (t * ms_per_day + (1 # 2)))) in *.
  unfold ms_per_day in *.
  assert (E : r / 86400000 == r * (1 # 86400000)) by field.
  rewrite E. lra.
Qed.

Lemma isot_returns (renders : Q -> bool) (t : Q) (x : IsoText) :
  isot renders t = Returns x ->
  renders t = true /\ x = mkIsoText (Qfloor (t * ms_per_day + (1 # 2))).
Proof.
  unfold isot. destruct (renders t); [|discriminate].
  intros H. split; [reflexivity|congruence].
Qed.

Lemma isot_raises (renders : Q -> bool) (t : Q) (e : exn) :
  isot renders t = Raises e -> e = ValueError.
Proof.
  unfold isot. destruct (renders t); [discriminate|congruence].
Qed.

Lemma isot_refused (renders : Q -> bool) (t : Q) :
  renders t = false -> isot renders t = Raises ValueError.
Proof. intros H. unfold isot. rewrite H. reflexivity. Qed.

Lemma Transit_isot_returns (renders : Q -> bool) (w : Transit)
    (x : TransitIsot) :
  Transit_isot renders w = Returns x ->
  isot renders (ingress w) = Returns (ingress_isot x)
  /\ isot renders (midpoint w) = Returns (midpoint_isot x)
  /\ isot renders (egress w) = Returns (egress_isot x).
Proof.
  unfold Transit_isot.
  destruct (isot renders (ingress w)) as [i|]; [|discriminate].
  destruct (isot renders (midpoint w)) as [m|]; [|discriminate].
  destruct (isot renders (egress w)) as [e|]; [|discriminate].
  cbn [Py.bind]. intros H.
  assert (Hx : x = mkTransitIsot i m e) by congruence.
  rewrite Hx. cbn. repeat split.
Qed.

Lemma Transit_isot_raises (renders : Q -> bool) (w : Transit) (e : exn) :
  Transit_isot renders w = Raises e -> e = ValueError.
Proof.
  unfold Transit_isot.
  destruct (isot renders (ingress w)) as [i|e1] eqn:E1;
    [|apply isot_raises in E1; cbn [Py.bind]; congruence].
  destruct (isot renders (midpoint w)) as [m|e2] eqn:E2;
    [|apply isot_raises in E2; cbn [Py.bind]; congruence].
  destruct (isot renders (egress w)) as [g|e3] eqn:E3;
    [|apply isot_raises in E3; cbn [Py.bind]; congruence].
  discriminate.
Qed.

Lemma Forall2_In_right {A B : Type} (R : A -> B -> Prop) (l : list A)
    (l' : list B) (y : B) :
  Forall2 R l l' -> In y l' -> exists x, In x l /\ R x y.
Proof.
  induction 1 as [|a b l l' Hab _ IH]; intros Hy; [destruct Hy|].
  destruct Hy as [<-|Hy].
  - exists a. split; [left; reflexivity|exact Hab].
  - destruct (IH Hy) as (x & Hx & HR). exists x. split; [right; exact Hx|exact HR].
Qed.

(** A list of texts returned by the loop is its accumulator followed by
    the texts of the windows that the loop on instants appends, with the
    same fuel. *)
Lemma transits_while_isot_returns (renders : Q -> bool) (T P : Q)
    (self : Exoplanet) (t1 : Q) :
  forall (fuel : nat) (num : Z) (acc xs : list TransitIsot),
    transits_while_isot renders fuel T P self t1 num acc = Some (Returns xs) ->
    exists (k : nat) (ys : list TransitIsot),
      xs = (acc ++ ys)%list
      /\ Forall2 (fun w y => Transit_isot renders w = Returns y)
           (map (window T P self) (indices num k)) ys
      /\ forall acc0 : list Transit,
           transits_while fuel T P self t1 num acc0
           = Some (acc0 ++ map (window T P self) (indices num k))%list.
Proof.
  induction fuel as [|fuel IH]; intros num acc xs H; [discriminate|].
  cbn [transits_while_isot] in H. cbv zeta in H.
  destruct (Qgtb (ingress (window T P self num)) t1) eqn:E.
  - exists 0%nat, nil. cbn [indices map]. rewrite app_nil_r.
    split; [congruence|]. split; [constructor|].
    intros acc0. cbn [transits_while]. cbv zeta. rewrite E, app_nil_r.
    reflexivity.
  - destruct (Transit_isot renders (window T P self num)) as [x|e] eqn:Ex;
      [|discriminate].
    apply IH in H. destruct H as (k & ys & -> & Hall & Hrun).
    exists (S k), (x :: ys). cbn [indices map].
    split; [rewrite <- app_assoc; reflexivity|].
    split; [constructor; assumption|].
    intros acc0. cbn [transits_while]. cbv zeta. rewrite E, Hrun.
    rewrite <- app_assoc. reflexivity.
Qed.

(** The same for the whole method. *)
Lemma transits_in_range_isot_returns (renders : Q -> bool)
    (parses : IsoText -> bool) (g : module_star) (self : Exoplanet)
    (a0 a1 : time_argument) (k : Z) (fuel : nat) (xs : list TransitIsot) :
  transits_in_range_isot renders parses g self a0 a1 k fuel
  = Some (Returns xs) ->
  exists (t0 t1 : Q) (ws : list Transit),
    as_Time parses a0 = Returns t0
    /\ as_Time parses a1 = Returns t1
    /\ transits_in_range g self t0 t1 k fuel = Some (Returns ws)
    /\ Forall2 (fun w x => Transit_isot renders w = Returns x) ws xs.
Proof.
  unfold transits_in_range_isot, transits_in_range. intros H.
  destruct (as_Time parses a0) as [t0|] eqn:E0; [|discriminate].
  destruct (as_Time parses a1) as [t1|] eqn:E1; [|discriminate].
  exists t0, t1.
  destruct (lookup_star g) as [s|]; [|discriminate].
  cbv zeta in *.
  destruct (floordiv (sec (t0 - transittime (planet s)))
              (sec (period (planet s)))) as [q|]; [|discriminate].
  apply transits_while_isot_returns in H.
  destruct H as (c & ys & -> & Hall & Hrun).
  rewrite (Hrun nil). cbn [app].
  eexists. repeat split. exact Hall.
Qed.

(** The midpoint text of a window that lasts a millisecond or more, read
    back by [in_transit], is found in transit. *)
Lemma in_transit_isot_midpoint (renders : Q -> bool)
    (parses : IsoText -> bool) (s : Star) (self : Exoplanet) (n : Z)
    (x : TransitIsot) :
  ~ period (planet s) == 0 ->
  1 # 60000 <= transit_duration self ->
  Transit_isot renders
    (window (transittime (planet s)) (period (planet s)) self n)
  = Returns x ->
  parses (midpoint_isot x) = true ->
  in_transit_isot renders parses (Some s) self (Str (midpoint_isot x)) false
  = Returns (FlagIsot true).
Proof.
  intros HP Hd Hx Hparse.
  apply Transit_isot_returns in Hx. destruct Hx as (_ & Hm & _).
  apply isot_returns in Hm. destruct Hm as [_ Hm].
  unfold in_transit_isot, as_Time, Time. rewrite Hparse. cbn [Py.bind].
  rewrite (in_transit_flag s self _ HP). cbn [Py.bind].
  do 2 f_equal.
  apply (two_windows_decide _ _ self _ HP). exists n.
  rewrite Hm, window_ingress, window_egress.
  destruct (instant_rounded
              (midpoint (window (transittime (planet s))
                           (period (planet s)) self n))) as [Hlo Hhi].
  cbv zeta in Hlo, Hhi.
  set (r := instant _) in *.
  rewrite window_midpoint in Hlo, Hhi.
  assert (Hh := half_duration_scale self).
  split; lra.
Qed.

(** With a negative period the ingress moves back by one period each turn,
    and after [c] more turns at most it is a date that is not written
    out. *)
Lemma transits_while_isot_negative (renders : Q -> bool) (T P : Q)
    (self : Exoplanet) (t1 : Q) :
  P < 0 ->
  (forall t, t < erfa_first -> renders t = false) ->
  forall (c : nat) (num : Z) (acc : list TransitIsot) (fuel : nat),
    ingress (window T P self num) <= t1 ->
    ingress (window T P self num) < erfa_first - inject_Z (Z.of_nat c) * P ->
    (c < fuel)%nat ->
    transits_while_isot renders fuel T P self t1 num acc
    = Some (Raises ValueError).
Proof.
  intros HP Hren. induction c as [|c IH]; intros num acc fuel Hle Hlt Hfuel;
    (destruct fuel as [|fuel]; [lia|]);
    cbn [transits_while_isot]; cbv zeta;
    (assert (E : Qgtb (ingress (window T P self num)) t1 = false)
       by (apply Qgtb_false; exact Hle));
    rewrite E.
  - assert (Hi : isot renders (ingress (window T P self num))
                 = Raises ValueError).
    { apply isot_refused, Hren.
      change (inject_Z (Z.of_nat 0)) with 0 in Hlt. lra. }
    unfold Transit_isot. rewrite Hi. reflexivity.
  - destruct (Transit_isot renders (window T P self num)) as [x|e] eqn:Ex.
    + apply IH; [| |lia].
      * rewrite window_ingress in *. rewrite inject_Z_succ. lra.
      * rewrite window_ingress in *. rewrite inject_Z_succ.
        rewrite Nat2Z.inj_succ in Hlt. unfold Z.succ in Hlt.
        rewrite inject_Z_succ in Hlt. lra.
    + apply Transit_isot_raises in Ex. congruence.
Qed.

(** The whole method on such a star: once the first window is entered no
    later than [t1], the call ends with [ValueError]. *)
Lemma transits_in_range_isot_negative (renders : Q -> bool)
    (parses : IsoText -> bool) (s : Star) (self : Exoplanet)
    (a0 a1 : time_argument) (t0 t1 : Q) (k : Z) :
  (forall t, t < erfa_first -> renders t = false) ->
  as_Time parses a0 = Returns t0 ->
  as_Time parses a1 = Returns t1 ->
  period (planet s) < 0 ->
  let T := transittime (planet s) in
  let P := period (planet s) in
  let n0 := (Qfloor ((t0 - T) / P) - 1)%Z in
  ingress (window T P self n0) <= t1 ->
  exists fuel0 : nat,
    forall fuel, (fuel0 <= fuel)%nat ->
      transits_in_range_isot renders parses (Some s) self a0 a1 k fuel
      = Some (Raises ValueError).
Proof.
  intros Hren E0 E1 HP T P n0 Hfirst.
  set (x := (ingress (window T P self n0) - erfa_first) / (- P)).
  set (c := Z.to_nat (Z.max 0 (Qfloor x + 1))).
  exists (S c). intros fuel Hfuel.
  unfold transits_in_range_isot. rewrite E0, E1. cbn [lookup_star].
  cbv zeta. fold T P.
  assert (HP0 : ~ P == 0) by (unfold P; lra).
  rewrite (floordiv_sec _ _ HP0). fold n0.
  apply (transits_while_isot_negative renders T P self t1 HP Hren c);
    [exact Hfirst| |lia].
  assert (Hx : x < inject_Z (Z.of_nat c)).
  { unfold c. rewrite Z2Nat.id by lia.
    apply Qlt_le_trans with (inject_Z (Qfloor x + 1)).
    - apply Qlt_floor.
    - rewrite <- Zle_Qle. lia. }
  assert (Ex : x * (- P) == ingress (window T P self n0) - erfa_first).
  { unfold x. field. lra. }
  assert (HnP : 0 < - P) by (unfold P in *; lra).
  apply (Qmult_lt_compat_r _ _ (- P)) in Hx; [|exact HnP].
  lra.
Qed.

(** On [star_back], from JD 0 to JD 7, the loop writes out 15871 windows
    and raises on the next one, whose ingress is JD -31740.5. *)
Example transits_in_range_isot_back :
  transits_in_range_isot renders_erfa parses_four_digits (Some star_back)
    planet_b (TimeObject 0) (TimeObject 7) 10 (Z.to_nat 15871)
  = None
  /\ transits_in_range_isot renders_erfa parses_four_digits (Some star_back)
       planet_b (TimeObject 0) (TimeObject 7) 10 (Z.to_nat 15872)
     = Some (Raises ValueError).
Proof. split; vm_compute; reflexivity. Qed.

End IsotFacts.

Section GeometryLemmas.

Import Geometry.
Local Open Scope R_scope.

Lemma np_div_Fin (x y : R) : y <> 0 -> np_div (Fin x) (Fin y) = Fin (x / y).
Proof.
  intros Hy. unfold np_div. destruct (Req_dec_T y 0); [contradiction|reflexivity].
Qed.

Lemma np_div_zero (x y : R) : y = 0 -> np_div (Fin x) (Fin y) = NonFinite.
Proof.
  intros Hy. unfold np_div. destruct (Req_dec_T y 0); [reflexivity|contradiction].
Qed.

Lemma np_sqrt_Fin (x : R) : 0 <= x -> np_sqrt (Fin x) = Fin (sqrt x).
Proof.
  intros Hx. unfold np_sqrt. destruct (Rlt_dec x 0); [lra|reflexivity].
Qed.

Lemma np_sqrt_negative (x : R) : x < 0 -> np_sqrt (Fin x) = NonFinite.
Proof.
  intros Hx. unfold np_sqrt. destruct (Rlt_dec x 0); [reflexivity|lra].
Qed.

Lemma np_arcsin_Fin (x : R) :
  -1 <= x <= 1 -> np_arcsin (Fin x) = Fin (asin x).
Proof.
  intros [H1 H2]. unfold np_arcsin.
  destruct (Rle_dec (-1) x); [|lra]. destruct (Rle_dec x 1); [reflexivity|lra].
Qed.

Lemma np_arcsin_outside (x : R) :
  x < -1 \/ 1 < x -> np_arcsin (Fin x) = NonFinite.
Proof.
  intros H. unfold np_arcsin.
  destruct (Rle_dec (-1) x); [|reflexivity].
  destruct (Rle_dec x 1); [lra|reflexivity].
Qed.

Lemma np_mul_NonFinite_r (a : npfloat) : np_mul a NonFinite = NonFinite.
Proof. destruct a; reflexivity. Qed.

Lemma np_sub_NonFinite_r (a : npfloat) : np_sub a NonFinite = NonFinite.
Proof. destruct a; reflexivity. Qed.

Lemma np_div_NonFinite_r (a : npfloat) : np_div a NonFinite = NonFinite.
Proof. destruct a; reflexivity. Qed.

Lemma to_same_dim (q : Quantity) (u : Unit) :
  same_dim (unit q) u = true ->
  to q u
  = Returns (mkQuantity (np_mul (value q) (Fin (scale (unit q) / scale u))) u).
Proof. intros H. unfold to. rewrite H. reflexivity. Qed.

(** Converting a ratio of two lengths to the dimensionless unit gives the
    ratio of the lengths in metres. *)
Lemma ratio_converted (x y sx sy : R) :
  sy <> 0 ->
  np_mul (np_div (Fin x) (Fin y)) (Fin (sx / sy / 1))
  = np_div (Fin (x * sx)) (Fin (y * sy)).
Proof.
  intros Hsy. destruct (Req_dec_T y 0) as [Hy|Hy].
  - rewrite !np_div_zero by (subst; ring). reflexivity.
  - rewrite !np_div_Fin; [|nra|exact Hy]. cbn. f_equal. field. split; assumption.
Qed.

Lemma ratio_times_converted (x y sx sy c : R) :
  sy <> 0 ->
  np_mul
    (np_pow2 (np_mul (np_div (Fin x) (Fin y)) (Fin c)))
    (Fin (sx / sy * 1 * (sx / sy * 1) / (1 * 1)))
  = np_pow2 (np_mul (np_div (Fin (x * sx)) (Fin (y * sy))) (Fin c)).
Proof.
  intros Hsy. destruct (Req_dec_T y 0) as [Hy|Hy].
  - rewrite !np_div_zero by (subst; ring). reflexivity.
  - rewrite !np_div_Fin; [|nra|exact Hy]. cbn. f_equal. field. split; assumption.
Qed.

Lemma argument_converted (x y sx sy : R) (root : npfloat) :
  sy <> 0 ->
  np_mul (np_mul (np_div (Fin x) (Fin y)) root)
    (Fin (sx / sy * sqrt (1 * 1 / 1) / 1))
  = np_mul (np_div (Fin (x * sx)) (Fin (y * sy))) root.
Proof.
  intros Hsy.
  replace (1 * 1 / 1) with 1 by field. rewrite sqrt_1.
  destruct (Req_dec_T y 0) as [Hy|Hy].
  - rewrite !np_div_zero by (subst; ring). reflexivity.
  - rewrite !np_div_Fin; [|nra|exact Hy]. destruct root; [|reflexivity].
    cbn. f_equal. field. split; assumption.
Qed.

Lemma square_converted (c : R) :
  np_mul (np_pow2 (Fin c)) (Fin (1 * 1 / 1)) = np_pow2 (Fin c).
Proof. cbn. f_equal. field. Qed.

(** The expression of the notebook computes the formula of the
    specification on lengths in metres and the angle in radians, and
    gives it in minutes. *)
Lemma duration_expression_np (inc rs rp per a : R) :
  duration_expression (quantity inc degree) (quantity rs R_sun)
    (quantity rp R_jup) (quantity per day) (quantity a AU)
  = Returns
      (np_mul
         (duration_np per (metres rs R_sun) (metres rp R_jup) (metres a AU)
            (radians inc))
         (Fin 1440)).
Proof.
  unfold duration_expression, float_add, float_sub, quantity_cos,
    quantity_sub, quantity_arcsin.
  repeat (rewrite !to_same_dim by reflexivity;
          cbn [Py.bind value unit quantity quantity_div quantity_mul
                 quantity_pow2 quantity_sqrt quantity_div_float
                 quantity_mul_float]).
  f_equal. cbn [scale unit_div unit_mul unit_pow2 unit_sqrt
                  dimensionless_unscaled radian degree R_sun R_jup AU day minute].
  rewrite (ratio_converted rp rs 71492000 695700000) by lra.
  replace (np_mul (Fin inc) (Fin (PI / 180 / 1))) with (Fin (radians inc))
    by (cbn; unfold radians; f_equal; field).
  cbn [np_cos].
  rewrite (ratio_times_converted a rs 149597870700 695700000) by lra.
  rewrite (argument_converted rs a 695700000 149597870700) by lra.
  rewrite square_converted.
  replace (86400 / 60) with 1440 by field.
  reflexivity.
Qed.

Lemma transit_duration_computed (self : Exoplanet) (s : Star.t)
    (inc per sma rp rs : R) :
  inclination self = Some inc -> period self = Some per ->
  semimajoraxis self = Some sma -> radius self = Some rp ->
  star self = Some s -> Star.radius s = Some rs ->
  _transit_duration self = None ->
  let d :=
    np_mul
      (duration_np per (metres rs R_sun) (metres rp R_jup) (metres sma AU)
         (radians inc))
      (Fin 1440) in
  transit_duration self = Returns (d, set_transit_duration self d).
Proof.
  intros Hi Hp Ha Hr Hs Hrs Hc d. unfold transit_duration.
  rewrite Hc, Hi, Hp, Ha, Hr, Hs. cbn [getattr Py.bind]. rewrite Hrs.
  cbn [getattr Py.bind]. rewrite duration_expression_np. reflexivity.
Qed.

(** A second read of the property returns the cached value. *)
Lemma transit_duration_cached (self : Exoplanet) (d : npfloat) :
  transit_duration (set_transit_duration self d)
  = Returns (d, set_transit_duration self d).
Proof. reflexivity. Qed.

(** Up to the arcsine, when every division and the square root are
    defined. *)
Lemma duration_np_arcsin (P Rs Rp A i : R) :
  Rs <> 0 -> A <> 0 -> denominator i <> 0 -> 0 <= radicand Rs Rp A i ->
  duration_np P Rs Rp A i
  = np_mul (Fin (P / PI)) (np_arcsin (Fin (arcsin_argument Rs Rp A i))).
Proof.
  intros HRs HA Hden Hrad.
  unfold duration_np.
  rewrite !np_div_Fin by (assumption || apply PI_neq0).
  cbn [np_cos np_pow2 np_add np_sub np_mul np_lift2].
  assert (Eden : 1 - cos i * cos i = denominator i)
    by (unfold denominator; ring).
  rewrite Eden, np_div_Fin by exact Hden.
  assert (Erad : ((1 + Rp / Rs) * (1 + Rp / Rs)
                  - A / Rs * cos i * (A / Rs * cos i)) / denominator i
                 = radicand Rs Rp A i)
    by (unfold radicand; f_equal; ring).
  rewrite Erad, np_sqrt_Fin by exact Hrad.
  reflexivity.
Qed.

(** In the real domain of the formula the numpy evaluation is finite and
    equal to it. *)
Lemma duration_np_in_domain (P Rs Rp A i : R) :
  in_domain Rs Rp A i ->
  duration_np P Rs Rp A i = Fin (duration_formula P Rs Rp A i).
Proof.
  intros (HRs & HA & Hden & Hrad & Harg).
  rewrite duration_np_arcsin by assumption.
  rewrite np_arcsin_Fin by exact Harg. reflexivity.
Qed.

(** Outside it the numpy evaluation is not finite. *)
Lemma duration_np_zero_denominator (P Rs Rp A i : R) :
  denominator i = 0 -> duration_np P Rs Rp A i = NonFinite.
Proof.
  intros Hden. unfold duration_np.
  cbn [np_cos np_pow2 np_sub np_mul np_lift2].
  assert (Eden : 1 - cos i * cos i = 0)
    by (unfold denominator in Hden; lra).
  rewrite Eden.
  destruct (np_sub _ _) as [x|]; [|cbn; now rewrite !np_mul_NonFinite_r].
  rewrite (np_div_zero x 0 eq_refl). cbn. now rewrite !np_mul_NonFinite_r.
Qed.

Lemma duration_np_outside_arcsin (P Rs Rp A i : R) :
  arcsin_argument Rs Rp A i < -1 \/ 1 < arcsin_argument Rs Rp A i ->
  duration_np P Rs Rp A i = NonFinite.
Proof.
  intros Harg.
  destruct (Req_dec_T (denominator i) 0) as [Hden|Hden];
    [apply duration_np_zero_denominator; exact Hden|].
  destruct (Req_dec_T Rs 0) as [HRs|HRs].
  { exfalso. unfold arcsin_argument in Harg. subst Rs.
    replace (0 / A) with 0 in Harg by (unfold Rdiv; ring). lra. }
  destruct (Req_dec_T A 0) as [HA|HA].
  { exfalso. unfold arcsin_argument in Harg. subst A.
    replace (Rs / 0) with 0 in Harg by (unfold Rdiv; rewrite Rinv_0; ring).
    lra. }
  destruct (Rlt_dec (radicand Rs Rp A i) 0) as [Hneg|Hpos].
  { exfalso. unfold arcsin_argument in Harg.
    rewrite sqrt_neg_0 in Harg by lra. lra. }
  rewrite duration_np_arcsin by (assumption || lra).
  rewrite np_arcsin_outside by exact Harg. reflexivity.
Qed.

Lemma transit_depth_computed (self : Exoplanet) (s : Star.t) (rp rs : R) :
  radius self = Some rp -> star self = Some s -> Star.radius s = Some rs ->
  _transit_depth self = None ->
  let q :=
    quantity_pow2
      (quantity_div (mkQuantity (Fin (rp * (scale R_jup / scale m))) m)
         (mkQuantity (Fin (rs * (scale R_sun / scale m))) m)) in
  transit_depth self = Returns (q, set_transit_depth self q).
Proof.
  intros Hr Hs Hrs Hc q. unfold transit_depth.
  rewrite Hc, Hs. cbn [getattr Py.bind]. rewrite Hrs, Hr.
  cbn [getattr Py.bind]. rewrite !to_same_dim by reflexivity.
  reflexivity.
Qed.

Lemma depth_formula_range (Rs Rp : R) :
  0 < Rp -> Rp < Rs -> 0 < depth_formula Rs Rp < 1.
Proof.
  intros Hp Hlt. unfold depth_formula.
  assert (Hs : 0 < Rs) by lra.
  assert (H0 : 0 < Rp / Rs) by (apply Rdiv_lt_0_compat; assumption).
  assert (H1 : Rp / Rs < 1).
  { apply (Rmult_lt_reg_r Rs); [exact Hs|].
    replace (Rp / Rs * Rs) with Rp by (field; lra). lra. }
  nra.
Qed.

Lemma radians_90 : radians 90 = PI / 2.
Proof. unfold radians. field. Qed.

Lemma radians_0 : radians 0 = 0.
Proof. unfold radians. ring. Qed.

Lemma denominator_face_on : denominator (radians 0) = 0.
Proof. unfold denominator. rewrite radians_0, cos_0. ring. Qed.

Lemma in_domain_edge_on :
  in_domain (metres 1 R_sun) (metres 1 R_jup) (metres 1 AU) (radians 90).
Proof.
  assert (Ec : cos (radians 90) = 0) by (rewrite radians_90; apply cos_PI2).
  assert (Ed : denominator (radians 90) = 1)
    by (unfold denominator; rewrite Ec; ring).
  assert (Er : radicand (metres 1 R_sun) (metres 1 R_jup) (metres 1 AU)
                 (radians 90)
               = (1 + 71492000 / 695700000) ^ 2).
  { unfold radicand. rewrite Ed, Ec. unfold metres. cbn [scale R_sun R_jup AU].
    field. }
  unfold in_domain, arcsin_argument. rewrite Er, Ed.
  rewrite sqrt_pow2 by lra.
  unfold metres. cbn [scale R_sun R_jup AU].
  repeat split; lra.
Qed.

End GeometryLemmas.

(** * The claims *)

Section BagClaims.

Import Bag.
Local Open Scope string_scope.

(** The tag "names" replaces the list of aliases by the value of the
    element: an alias was recorded, and [name] raises [TypeError]. *)
Lemma build_properties_names_tag :
  let element := [ mkElement "name" (Some "TrES-3");
                   mkElement "names" (Some "1.0") ] in
  aliases (build_spec read_decimal fresh_bag element) = [Some "TrES-3"]
  /\ name_spec (build_spec read_decimal fresh_bag element)
     = Returns (PStr "TrES-3")
  /\ (self <-- _build_properties read_decimal OEC_class (object_of fresh_bag)
                 element ;;
      name self) = Raises TypeError.
Proof. repeat split; vm_compute; reflexivity. Qed.

(** C9, amended.  On a sequence of elements in which every element that
    has a text and a tag other than "name" has a tag that [setattr]
    accepts on the instance and that differs from "names",
    [_build_properties] builds the property bag of the specification: the
    text of a "name" element is appended to the aliases; for another
    element the parsed float is stored under the tag, or the text when it
    does not parse, and an element without text is skipped.  Afterwards
    [name] returns the first alias, and raises [IndexError] exactly when
    there is no alias. *)
Theorem build_properties_refines_bag {F : Type}
    (py_float : string -> option F) (cls : pyclass) (b : bag F)
    (element : list Element) :
  Forall (plain_tag cls) element ->
  let b' := build_spec py_float b element in
  _build_properties py_float cls (object_of b) element = Returns (object_of b')
  /\ name (object_of b') = name_spec b'
  /\ (name (object_of b') = Raises IndexError <-> aliases b' = nil).
Proof.
  intros Hall b'. split; [apply build_properties_plain; exact Hall|].
  split; [apply name_object_of|].
  rewrite name_object_of. unfold name_spec.
  destruct (aliases b') as [|a l]; split; intros H; try reflexivity;
    discriminate.
Qed.

Lemma build_properties_refines_bag_witness :
  Forall (plain_tag OEC_class) tres3_elements
  /\ _build_properties read_decimal OEC_class (object_of fresh_bag) tres3_elements
     = Returns (object_of (build_spec read_decimal fresh_bag tres3_elements))
  /\ name (object_of (build_spec read_decimal fresh_bag tres3_elements))
     = Returns (PStr "TrES-3").
Proof.
  assert (H : Forall (plain_tag OEC_class) tres3_elements).
  { unfold tres3_elements.
    repeat (constructor;
            [first [left; reflexivity
                   |right; left; reflexivity
                   |right; right; split; [discriminate|reflexivity]]|]).
    constructor. }
  split; [exact H|].
  destruct (build_properties_refines_bag read_decimal OEC_class fresh_bag
              tres3_elements H) as (H1 & H2 & _).
  split; [exact H1|]. rewrite H2. reflexivity.
Defined.

End BagClaims.

Section TimingClaims.

Import Timing.
Local Open Scope Q_scope.

(** C1, on the code.  [in_transit] and [transits_in_range] take the
    reference transit time and the period from the module-level name
    [star], not from the receiver: for the same receiver [planet_b] and
    the same arguments the results change with the binding of [star], and
    the calls raise [NameError] when [star] is not bound. *)
Theorem timing_depends_on_module_star :
  in_transit (Some star_b) planet_b 1 false = Returns (Flag true)
  /\ in_transit (Some star_a) planet_b 1 false = Returns (Flag false)
  /\ in_transit None planet_b 1 false = Raises NameError
  /\ transits_in_range (Some star_b) planet_b 0 3 10 10
     = Some (Returns (map (window 1 3 planet_b) [-2; -1; 0]%Z))
  /\ transits_in_range (Some star_a) planet_b 0 3 10 10
     = Some (Returns (map (window 0 2 planet_b) [-1; 0; 1]%Z))
  /\ transits_in_range None planet_b 0 3 10 10 = Some (Raises NameError).
Proof. repeat split; vm_compute; reflexivity. Qed.

(** C3, on the code.  For the receiver [planet_b] (reference transit at
    JD 1, period 3 days, duration 1 day) and the range from JD 0 to JD 7,
    the list returned while [star] is bound to [star_a] holds the windows
    of the planet of [star_a] (midpoints 0 + 2n for n from -1 to 3), not
    the windows of the receiver (midpoints 1 + 3n from the index
    floor((0 - 1) / 3) - 1 = -2 to the index 2). *)
Theorem transits_in_range_uses_module_star :
  transits_in_range (Some star_a) planet_b 0 7 10 10
  = Some (Returns (map (window 0 2 planet_b) [-1; 0; 1; 2; 3]%Z))
  /\ (Qfloor ((0 - transittime planet_b) / period planet_b) - 1 = -2)%Z
  /\ transits_in_range (Some star_a) planet_b 0 7 10 10
     <> Some (Returns
                (map (window (transittime planet_b) (period planet_b) planet_b)
                   [-2; -1; 0; 1; 2]%Z)).
Proof.
  split; [vm_compute; reflexivity|]. split; [reflexivity|].
  vm_compute. discriminate.
Qed.

(** C4, on the code.  The receiver [planet_b] has period 3 > 0, reference
    transit time JD 1 and duration 1440 > 0, and [in_transit] at its own
    reference transit time answers false while [star] is bound to
    [star_a]. *)
Theorem in_transit_reference_epoch_false :
  0 < period planet_b
  /\ 0 < transit_duration planet_b
  /\ in_transit (Some star_a) planet_b (transittime planet_b) false
     = Returns (Flag false).
Proof. repeat split. Qed.

(** C7, on the code.  The receiver [planet_b] has period 3 > 0 and a
    finite duration, and the bounds are finite; the call returns no list
    when the module-level name [star] is not bound: it raises [NameError],
    whatever the fuel, on [Time] objects and with the texts written
    out. *)
Theorem transits_in_range_no_list :
  0 < period planet_b
  /\ (forall fuel, transits_in_range None planet_b 0 7 10 fuel
                   = Some (Raises NameError))
  /\ (forall renders parses fuel,
        Isot.transits_in_range_isot renders parses None planet_b
          (Isot.TimeObject 0) (Isot.TimeObject 7) 10 fuel
        = Some (Raises NameError)).
Proof.
  split; [reflexivity|]. split; reflexivity.
Qed.

(** C10.  The third parameter of [transits_in_range] is not read: the
    result is the same for every value of it. *)
Theorem transits_in_range_ignores_num_of_transits (g : module_star)
    (self : Exoplanet) (t0 t1 : Q) (k k' : Z) (fuel : nat) :
  transits_in_range g self t0 t1 k fuel
  = transits_in_range g self t0 t1 k' fuel.
Proof. reflexivity. Qed.

End TimingClaims.

Section IsotClaims.

Import Timing Isot.
Local Open Scope Q_scope.

(** C6, on the code.  The midpoint of a returned window is a text rounded
    to the millisecond, and [in_transit] reads it back: for the planet
    [planet_ms] (period 2 > 0, duration a tenth of a millisecond > 0) and
    its own star, the midpoint text of a window returned for the first
    days of June 2017 is found out of transit; and for [planet_a], in
    transit around JD 0, the midpoint text of a returned window is one
    that [Time] does not read. *)
Lemma transits_in_range_roundtrip_fails :
  0 < period planet_ms
  /\ 0 < transit_duration planet_ms
  /\ (exists (ws : list TransitIsot) (w : TransitIsot),
        transits_in_range_isot renders_erfa parses_four_digits
          (Some star_ms) planet_ms (Str june_1) (Str june_4) 10 10
        = Some (Returns ws)
        /\ In w ws
        /\ in_transit_isot renders_erfa parses_four_digits (Some star_ms)
             planet_ms (Str (midpoint_isot w)) false
           = Returns (FlagIsot false))
  /\ (exists (ws : list TransitIsot) (w : TransitIsot),
        transits_in_range_isot renders_erfa parses_four_digits
          (Some star_a) planet_a (TimeObject 0) (TimeObject 3) 10 10
        = Some (Returns ws)
        /\ In w ws
        /\ in_transit_isot renders_erfa parses_four_digits (Some star_a)
             planet_a (Str (midpoint_isot w)) false
           = Raises ValueError).
Proof.
  split; [reflexivity|]. split; [reflexivity|]. split.
  - eexists. exists (mkTransitIsot june_1 june_1 june_1).
    split; [vm_compute; reflexivity|].
    split; [right; right; left; reflexivity|].
    vm_compute. reflexivity.
  - eexists. exists (mkTransitIsot (mkIsoText (-43200000)) (mkIsoText 0)
                       (mkIsoText 43200000)).
    split; [vm_compute; reflexivity|].
    split; [right; left; reflexivity|].
    vm_compute. reflexivity.
Qed.

(** C6, amended.  When the receiver's transit lasts a millisecond
    (1/60000 minute) or more, every window of a list returned by
    [transits_in_range] whose midpoint text [Time] reads has a midpoint at
    which [in_transit] (same receiver, same binding of [star]) answers
    true.  This holds whatever the period, whatever dates are written out
    and whatever texts are read. *)
Theorem transits_in_range_isot_roundtrip (renders : Q -> bool)
    (parses : IsoText -> bool) (g : module_star) (self : Exoplanet)
    (t0 t1 : time_argument) (k : Z) (fuel : nat) (ws : list TransitIsot)
    (w : TransitIsot) :
  1 # 60000 <= transit_duration self ->
  transits_in_range_isot renders parses g self t0 t1 k fuel
  = Some (Returns ws) ->
  In w ws ->
  parses (midpoint_isot w) = true ->
  in_transit_isot renders parses g self (Str (midpoint_isot w)) false
  = Returns (FlagIsot true).
Proof.
  intros Hd Hrun Hw Hparse.
  apply transits_in_range_isot_returns in Hrun.
  destruct Hrun as (i0 & i1 & l & _ & _ & Hl & Hall).
  destruct g as [s|]; [|discriminate].
  apply transits_in_range_returns_shape in Hl.
  destruct Hl as (HP & count & -> & _ & _).
  destruct (Forall2_In_right _ _ _ _ Hall Hw) as (win & Hwin & Hx).
  apply in_map_iff in Hwin. destruct Hwin as (n & <- & _).
  exact (in_transit_isot_midpoint renders parses s self n w HP Hd Hx Hparse).
Qed.

Lemma transits_in_range_isot_roundtrip_witness :
  1 # 60000 <= transit_duration tres3b
  /\ transits_in_range_isot renders_erfa parses_four_digits (Some tres3)
       tres3b (Str june_1) (Str june_4) 10 10
     = Some (Returns tres3b_june)
  /\ In (mkTransitIsot (mkIsoText 212363070244704)
           (mkIsoText 212363072944704) (mkIsoText 212363075644704))
       tres3b_june
  /\ parses_four_digits (mkIsoText 212363072944704) = true
  /\ in_transit_isot renders_erfa parses_four_digits (Some tres3) tres3b
       (Str (mkIsoText 212363072944704)) false
     = Returns (FlagIsot true).
Proof.
  assert (H1 : 1 # 60000 <= transit_duration tres3b)
    by (vm_compute; discriminate).
  pose (w := mkTransitIsot (mkIsoText 212363070244704)
               (mkIsoText 212363072944704) (mkIsoText 212363075644704)).
  assert (H2 : transits_in_range_isot renders_erfa parses_four_digits
                 (Some tres3) tres3b (Str june_1) (Str june_4) 10 10
               = Some (Returns tres3b_june)) by (vm_compute; reflexivity).
  assert (H3 : In w tres3b_june) by (right; right; left; reflexivity).
  assert (H4 : parses_four_digits (midpoint_isot w) = true) by reflexivity.
  split; [exact H1|]. split; [exact H2|]. split; [exact H3|].
  split; [exact H4|].
  exact (transits_in_range_isot_roundtrip renders_erfa parses_four_digits
           (Some tres3) tres3b (Str june_1) (Str june_4) 10 10%nat
           tres3b_june w H1 H2 H3 H4).
Defined.

End IsotClaims.

Section GeometryClaims.

Import Geometry.
Local Open Scope R_scope.

(** C2.  For a planet whose inclination, period, semi-major axis and
    radius are set, whose star has its radius set, and whose cache is
    empty, [transit_duration] returns, in minutes, the value of
    (period/pi) arcsin[(R_star/a) sqrt(((1 + R_planet/R_star)^2
    - ((a/R_star) cos i)^2) / (1 - cos^2 i))] computed with the numpy
    operations on the lengths in metres and the inclination in radians;
    wherever the formula is defined over the reals, that value is the real
    number it denotes. *)
Theorem transit_duration_formula (self : Exoplanet) (s : Star.t)
    (inc per sma rp rs : R) :
  inclination self = Some inc -> period self = Some per ->
  semimajoraxis self = Some sma -> radius self = Some rp ->
  star self = Some s -> Star.radius s = Some rs ->
  _transit_duration self = None ->
  let Rs := metres rs R_sun in
  let Rp := metres rp R_jup in
  let A := metres sma AU in
  let i := radians inc in
  let d := np_mul (duration_np per Rs Rp A i) (Fin 1440) in
  transit_duration self = Returns (d, set_transit_duration self d)
  /\ (in_domain Rs Rp A i ->
      d = Fin (minutes_of_days (duration_formula per Rs Rp A i))).
Proof.
  intros Hi Hp Ha Hr Hs Hrs Hc Rs Rp A i d. split.
  - apply (transit_duration_computed self s inc per sma rp rs); assumption.
  - intros Hdom. unfold d.
    rewrite (duration_np_in_domain _ _ _ _ _ Hdom). reflexivity.
Qed.

Lemma transit_duration_formula_witness :
  in_domain (metres 1 R_sun) (metres 1 R_jup) (metres 1 AU) (radians 90)
  /\ transit_duration edge_on
     = Returns
         (Fin (minutes_of_days
                 (duration_formula 1 (metres 1 R_sun) (metres 1 R_jup)
                    (metres 1 AU) (radians 90))),
          set_transit_duration edge_on
            (Fin (minutes_of_days
                    (duration_formula 1 (metres 1 R_sun) (metres 1 R_jup)
                       (metres 1 AU) (radians 90))))).
Proof.
  split; [exact in_domain_edge_on|].
  destruct (transit_duration_formula edge_on (Star.mk (Some 1)) 90 1 1 1 1
              eq_refl eq_refl eq_refl eq_refl eq_refl eq_refl eq_refl)
    as [Hrun Hval].
  rewrite Hrun, (Hval in_domain_edge_on). reflexivity.
Defined.

(** At an inclination of 0 degrees the denominator 1 - cos^2 i is zero, and
    [transit_duration] returns a non-finite float: it raises nothing. *)
Lemma transit_duration_face_on_returns :
  denominator (radians 0) = 0
  /\ transit_duration face_on
     = Returns (NonFinite, set_transit_duration face_on NonFinite)
  /\ forall e, transit_duration face_on <> Raises e.
Proof.
  assert (H : transit_duration face_on
              = Returns (NonFinite, set_transit_duration face_on NonFinite)).
  { rewrite (transit_duration_computed face_on (Star.mk (Some 1)) 0 1 1 1 1)
      by reflexivity.
    rewrite (duration_np_zero_denominator _ _ _ _ _ denominator_face_on).
    reflexivity. }
  split; [exact denominator_face_on|]. split; [exact H|].
  intros e. rewrite H. discriminate.
Qed.

(** C5, amended.  If the denominator 1 - cos^2 i is zero, or the argument
    of the arcsine lies outside [-1, 1], then [transit_duration] raises no
    error: it returns a non-finite float (numpy's [nan]) and caches it. *)
Theorem transit_duration_outside_domain (self : Exoplanet) (s : Star.t)
    (inc per sma rp rs : R) :
  inclination self = Some inc -> period self = Some per ->
  semimajoraxis self = Some sma -> radius self = Some rp ->
  star self = Some s -> Star.radius s = Some rs ->
  _transit_duration self = None ->
  denominator (radians inc) = 0
  \/ arcsin_argument (metres rs R_sun) (metres rp R_jup) (metres sma AU)
       (radians inc) < -1
  \/ 1 < arcsin_argument (metres rs R_sun) (metres rp R_jup) (metres sma AU)
           (radians inc) ->
  transit_duration self
  = Returns (NonFinite, set_transit_duration self NonFinite).
Proof.
  intros Hi Hp Ha Hr Hs Hrs Hc Hout.
  rewrite (transit_duration_computed self s inc per sma rp rs) by assumption.
  destruct Hout as [Hden|Harg].
  - rewrite (duration_np_zero_denominator _ _ _ _ _ Hden). reflexivity.
  - rewrite (duration_np_outside_arcsin _ _ _ _ _ Harg). reflexivity.
Qed.

Lemma transit_duration_outside_domain_witness :
  denominator (radians 0) = 0
  /\ transit_duration face_on
     = Returns (NonFinite, set_transit_duration face_on NonFinite).
Proof.
  split; [exact denominator_face_on|].
  exact (transit_duration_outside_domain face_on (Star.mk (Some 1)) 0 1 1 1 1
           eq_refl eq_refl eq_refl eq_refl eq_refl eq_refl eq_refl
           (or_introl denominator_face_on)).
Defined.

(** C8.  For a planet and its star with radii R_planet > 0 and
    R_star > 0 and an empty cache, [transit_depth] returns the
    dimensionless quantity (R_planet/R_star)^2, both radii in metres; when
    R_planet < R_star that value lies strictly between 0 and 1. *)
Theorem transit_depth_formula (self : Exoplanet) (s : Star.t) (rp rs : R) :
  radius self = Some rp -> star self = Some s -> Star.radius s = Some rs ->
  _transit_depth self = None ->
  0 < rp -> 0 < rs ->
  exists q : Quantity,
    transit_depth self = Returns (q, set_transit_depth self q)
    /\ value q = Fin (depth_formula (metres rs R_sun) (metres rp R_jup))
    /\ same_dim (unit q) dimensionless_unscaled = true
    /\ scale (unit q) = 1
    /\ (metres rp R_jup < metres rs R_sun ->
        0 < depth_formula (metres rs R_sun) (metres rp R_jup) < 1).
Proof.
  intros Hr Hs Hrs Hc Hrp Hrspos.
  eexists. split; [apply (transit_depth_computed self s rp rs); assumption|].
  cbn [value unit quantity_pow2 quantity_div scale m R_jup R_sun unit_pow2
         unit_div].
  split.
  - rewrite np_div_Fin by lra. cbn [np_pow2 np_mul np_lift2]. f_equal.
    unfold depth_formula, metres. cbn [scale R_sun R_jup]. field. lra.
  - split; [reflexivity|]. split; [field|].
    intros Hlt. apply depth_formula_range; [|exact Hlt].
    unfold metres. cbn [scale R_jup]. lra.
Qed.

Lemma transit_depth_formula_witness :
  0 < 1 /\ metres 1 R_jup < metres 1 R_sun
  /\ exists q : Quantity,
       transit_depth edge_on = Returns (q, set_transit_depth edge_on q)
       /\ value q = Fin (depth_formula (metres 1 R_sun) (metres 1 R_jup))
       /\ 0 < depth_formula (metres 1 R_sun) (metres 1 R_jup) < 1.
Proof.
  assert (H1 : 0 < 1) by lra.
  assert (H2 : metres 1 R_jup < metres 1 R_sun)
    by (unfold metres; cbn [scale R_jup R_sun]; lra).
  split; [exact H1|]. split; [exact H2|].
  destruct (transit_depth_formula edge_on (Star.mk (Some 1)) 1 1
              eq_refl eq_refl eq_refl eq_refl H1 H1)
    as (q & Hq & Hv & _ & _ & Hrange).
  exists q. split; [exact Hq|]. split; [exact Hv|]. exact (Hrange H2).
Defined.

End GeometryClaims.

(** * Further properties *)

(** ** Timing *)

Section TimingProperties.

Import Timing.
Local Open Scope Q_scope.

(** X1.  With [star] bound to a star whose planet has a non-zero period,
    [in_transit] returns a flag, and the flag is true exactly when the
    instant lies in the closed window of some index of that planet: the two
    windows tested are enough, for a period of either sign. *)
Theorem in_transit_iff_some_window (s : Star) (self : Exoplanet) (t : Q) :
  ~ period (planet s) == 0 ->
  exists b : bool,
    in_transit (Some s) self t false = Returns (Flag b)
    /\ (b = true
        <-> exists n : Z,
              ingress (window (transittime (planet s)) (period (planet s)) self n)
              <= t
              /\ t <= egress (window (transittime (planet s))
                            (period (planet s)) self n)).
Proof.
  intros HP. eexists. split; [apply in_transit_flag; exact HP|].
  apply two_windows_decide. exact HP.
Qed.

Lemma in_transit_iff_some_window_witness :
  ~ period (planet star_a) == 0
  /\ exists b : bool,
       in_transit (Some star_a) planet_a 4 false = Returns (Flag b)
       /\ (b = true
           <-> exists n : Z,
                 ingress (window 0 2 planet_a n) <= 4
                 /\ 4 <= egress (window 0 2 planet_a n)).
Proof.
  assert (H : ~ period (planet star_a) == 0) by (intros E; discriminate E).
  split; [exact H|].
  exact (in_transit_iff_some_window star_a planet_a 4 H).
Defined.

(** X2.  [in_transit] is periodic: moving the instant by a whole number of
    periods of the planet of [star] does not change the answer. *)
Theorem in_transit_periodic (s : Star) (self : Exoplanet) (t : Q) (k : Z) :
  ~ period (planet s) == 0 ->
  in_transit (Some s) self (t + inject_Z k * period (planet s)) false
  = in_transit (Some s) self t false.
Proof.
  intros HP. rewrite !in_transit_flag by exact HP. do 2 f_equal.
  apply Bool.eq_true_iff_eq.
  rewrite !(two_windows_decide _ _ _ _ HP). apply some_window_shift.
Qed.

Lemma in_transit_periodic_witness :
  ~ period (planet star_a) == 0
  /\ in_transit (Some star_a) planet_a ((1 # 4) + inject_Z 5 * period (planet star_a))
       false
     = in_transit (Some star_a) planet_a (1 # 4) false.
Proof.
  assert (H : ~ period (planet star_a) == 0) by (intros E; discriminate E).
  split; [exact H|].
  exact (in_transit_periodic star_a planet_a (1 # 4) 5 H).
Defined.

(** X3.  With [with_times] set, [in_transit] returns the same flag as
    without it, together with the window tested last: the flag is the test
    of the instant against that very window, the window has index [num] or
    [num + 1], and it is the window of index [num + 1] whenever the flag is
    false. *)
Theorem in_transit_with_times_window (s : Star) (self : Exoplanet) (t : Q) :
  ~ period (planet s) == 0 ->
  let T := transittime (planet s) in
  let P := period (planet s) in
  let num := Qfloor ((t - T) / P) in
  exists (b : bool) (w : Transit),
    in_transit (Some s) self t true = Returns (FlagTimes b w)
    /\ in_transit (Some s) self t false = Returns (Flag b)
    /\ inside t w = b
    /\ (w = window T P self num \/ w = window T P self (num + 1))
    /\ (b = false -> w = window T P self (num + 1)).
Proof.
  intros HP T P num.
  rewrite (in_transit_with_times_value s self t HP).
  rewrite (in_transit_flag s self t HP). fold T P num.
  destruct (inside t (window T P self num)) eqn:E1.
  - exists true, (window T P self num). cbn [orb].
    repeat split; auto. discriminate.
  - exists (inside t (window T P self (num + 1))), (window T P self (num + 1)).
    cbn [orb]. repeat split; auto.
Qed.

Lemma in_transit_with_times_window_witness :
  ~ period (planet star_a) == 0
  /\ exists (b : bool) (w : Transit),
       in_transit (Some star_a) planet_a 1 true = Returns (FlagTimes b w)
       /\ in_transit (Some star_a) planet_a 1 false = Returns (Flag b)
       /\ inside 1 w = b.
Proof.
  assert (H : ~ period (planet star_a) == 0) by (intros E; discriminate E).
  split; [exact H|].
  destruct (in_transit_with_times_window star_a planet_a 1 H)
    as (b & w & H1 & H2 & H3 & _).
  exists b, w. split; [exact H1|]. split; [exact H2|exact H3].
Defined.

(** X4.  When the planet of [star] has period zero, both methods end with
    an exception at the floor division, before any window is computed. *)
Theorem zero_period_raises (s : Star) (self : Exoplanet) (t0 t1 : Q)
    (with_times : bool) (k : Z) :
  period (planet s) == 0 ->
  (exists e, in_transit (Some s) self t1 with_times = Raises e)
  /\ (forall fuel,
        exists e, transits_in_range (Some s) self t0 t1 k fuel = Some (Raises e)).
Proof.
  intros Hz. split.
  - destruct (floordiv_zero (t1 - transittime (planet s)) _ Hz) as [e He].
    exists e. unfold in_transit. cbn [lookup_star Py.bind].
    rewrite He. reflexivity.
  - intros fuel.
    destruct (floordiv_zero (t0 - transittime (planet s)) _ Hz) as [e He].
    exists e. unfold transits_in_range.
    cbn [lookup_star]. rewrite He. reflexivity.
Qed.

Lemma zero_period_raises_witness :
  period (planet (mkStar (mkExoplanet 0 0 1440))) == 0
  /\ (exists e,
        in_transit (Some (mkStar (mkExoplanet 0 0 1440))) planet_a 1 false
        = Raises e).
Proof.
  assert (H : period (planet (mkStar (mkExoplanet 0 0 1440))) == 0)
    by reflexivity.
  split; [exact H|].
  exact (proj1 (zero_period_raises (mkStar (mkExoplanet 0 0 1440)) planet_a
                  0 1 false 10 H)).
Defined.

(** X5.  With [star] bound to a star whose planet has a positive period,
    [transits_in_range] returns, for every fuel above the number of windows,
    the windows of that planet of consecutive indices from
    floor((t0 - T0) / P) - 1 on, and an index from there on is in the list
    exactly when its ingress is no later than [t1]. *)
Theorem transits_in_range_windows (s : Star) (self : Exoplanet) (t0 t1 : Q)
    (k : Z) :
  0 < period (planet s) ->
  let T := transittime (planet s) in
  let P := period (planet s) in
  let n0 := (Qfloor ((t0 - T) / P) - 1)%Z in
  exists count : nat,
    (forall fuel, (count < fuel)%nat ->
       transits_in_range (Some s) self t0 t1 k fuel
       = Some (Returns (map (window T P self) (indices n0 count))))
    /\ (forall n, (n0 <= n)%Z ->
          ingress (window T P self n) <= t1 <-> (n < n0 + Z.of_nat count)%Z).
Proof. intros HP. apply transits_in_range_of_star. exact HP. Qed.

Lemma transits_in_range_windows_witness :
  0 < period (planet star_a)
  /\ exists count : nat,
       forall fuel, (count < fuel)%nat ->
         transits_in_range (Some star_a) planet_a 0 3 10 fuel
         = Some (Returns (map (window 0 2 planet_a) (indices (-1) count))).
Proof.
  assert (H : 0 < period (planet star_a)) by reflexivity.
  split; [exact H|].
  destruct (transits_in_range_windows star_a planet_a 0 3 10 H)
    as (count & Hrun & _).
  exists count. exact Hrun.
Defined.

End TimingProperties.

Section RangeProperties.

Import Timing.
Local Open Scope Q_scope.







(** X10.  A later end only adds windows: for the same start, the list
    returned for [t1] is a prefix of the list returned for any later
    [t1']. *)
Theorem transits_in_range_end_monotone (s : Star) (self : Exoplanet)
    (t0 t1 t1' : Q) (k k' : Z) (fuel fuel' : nat) (ws ws' : list Transit) :
  t1 <= t1' ->
  transits_in_range (Some s) self t0 t1 k fuel = Some (Returns ws) ->
  transits_in_range (Some s) self t0 t1' k' fuel' = Some (Returns ws') ->
  exists more : list Transit, ws' = (ws ++ more)%list.
Proof.
  intros Hle Hrun Hrun'.
  apply transits_in_range_returns_shape in Hrun, Hrun'.
  destruct Hrun as (_ & c & -> & Hall & _).
  destruct Hrun' as (_ & c' & -> & _ & Hstop').
  set (T := transittime (planet s)) in *. set (P := period (planet s)) in *.
  set (n0 := (Qfloor ((t0 - T) / P) - 1)%Z) in *.
  assert (Hc : (c <= c')%nat).
  { destruct (Nat.le_gt_cases c c') as [H|H]; [exact H|]. exfalso.
    assert (Hin : In (n0 + Z.of_nat c')%Z (indices n0 c))
      by (apply indices_In; lia).
    apply Hall in Hin. lra. }
  replace c' with (c + (c' - c))%nat by lia.
  rewrite indices_app, map_app. eexists. reflexivity.
Qed.

Lemma transits_in_range_end_monotone_witness :
  3 <= 7
  /\ transits_in_range (Some star_a) planet_a 0 3 10 10
     = Some (Returns (map (window 0 2 planet_a) [-1; 0; 1]%Z))
  /\ transits_in_range (Some star_a) planet_a 0 7 10 10
     = Some (Returns (map (window 0 2 planet_a) [-1; 0; 1; 2; 3]%Z))
  /\ exists more : list Transit,
       map (window 0 2 planet_a) [-1; 0; 1; 2; 3]%Z
       = (map (window 0 2 planet_a) [-1; 0; 1]%Z ++ more)%list.
Proof.
  assert (H0 : 3 <= 7) by (vm_compute; discriminate).
  assert (H1 : transits_in_range (Some star_a) planet_a 0 3 10 10
               = Some (Returns (map (window 0 2 planet_a) [-1; 0; 1]%Z)))
    by (vm_compute; reflexivity).
  assert (H2 : transits_in_range (Some star_a) planet_a 0 7 10 10
               = Some (Returns (map (window 0 2 planet_a) [-1; 0; 1; 2; 3]%Z)))
    by (vm_compute; reflexivity).
  split; [exact H0|]. split; [exact H1|]. split; [exact H2|].
  exact (transits_in_range_end_monotone star_a planet_a 0 3 7 10 10 10%nat
           10%nat _ _ H0 H1 H2).
Defined.

(** X11.  With a non-zero period, [transits_in_range] returns the empty
    list exactly when [t1] is earlier than the ingress of the first window
    (index floor((t0 - T0) / P) - 1); one turn of the loop is enough then. *)
Theorem transits_in_range_empty_iff (s : Star) (self : Exoplanet)
    (t0 t1 : Q) (k : Z) (fuel : nat) :
  ~ period (planet s) == 0 ->
  let T := transittime (planet s) in
  let P := period (planet s) in
  let n0 := (Qfloor ((t0 - T) / P) - 1)%Z in
  transits_in_range (Some s) self t0 t1 k (S fuel) = Some (Returns nil)
  <-> t1 < ingress (window T P self n0).
Proof.
  intros HP T P n0. subst T P n0. split.
  - intros Hrun. apply transits_in_range_returns_shape in Hrun.
    destruct Hrun as (_ & count & Hws & _ & Hstop).
    destruct count as [|count]; [|discriminate].
    rewrite Z.add_0_r in Hstop. exact Hstop.
  - intros Hlt. unfold transits_in_range. cbn [lookup_star].
    rewrite (floordiv_sec _ _ HP). cbn [transits_while]. cbv zeta.
    apply Qgtb_true in Hlt. rewrite Hlt. reflexivity.
Qed.

Lemma transits_in_range_empty_iff_witness :
  ~ period (planet star_a) == 0
  /\ (transits_in_range (Some star_a) planet_a 10 0 10 1 = Some (Returns nil)
      <-> 0 < ingress (window 0 2 planet_a (Qfloor ((10 - 0) / 2) - 1))).
Proof.
  assert (H : ~ period (planet star_a) == 0) by (intros E; discriminate E).
  split; [exact H|].
  exact (transits_in_range_empty_iff star_a planet_a 10 0 10 0%nat H).
Defined.

End RangeProperties.

Section RangeAndInTransit.

Import Timing.
Local Open Scope Q_scope.



End RangeAndInTransit.

(** ** The texts *)

Section IsotProperties.

Import Timing Isot.
Local Open Scope Q_scope.

(** X6.  When the planet of [star] has a negative period and the first
    window (index floor((t0 - T0) / P) - 1) is entered no later than [t1],
    [transits_in_range] returns no list: the loop goes back one period a
    turn until it reaches a date before the year -4799, which [.isot] does
    not write out, and the call ends with [ErfaError], a [ValueError]. *)
Theorem transits_in_range_negative_period (renders : Q -> bool)
    (parses : IsoText -> bool) (s : Star) (self : Exoplanet)
    (t0 t1 : Q) (k : Z) :
  (forall t, t < erfa_first -> renders t = false) ->
  period (planet s) < 0 ->
  let T := transittime (planet s) in
  let P := period (planet s) in
  let n0 := (Qfloor ((t0 - T) / P) - 1)%Z in
  ingress (window T P self n0) <= t1 ->
  exists fuel0 : nat,
    forall fuel, (fuel0 <= fuel)%nat ->
      transits_in_range_isot renders parses (Some s) self
        (TimeObject t0) (TimeObject t1) k fuel
      = Some (Raises ValueError).
Proof.
  intros Hren HP T P n0 Hfirst.
  exact (transits_in_range_isot_negative renders parses s self
           (TimeObject t0) (TimeObject t1) t0 t1 k Hren eq_refl eq_refl HP
           Hfirst).
Qed.

Lemma transits_in_range_negative_period_witness :
  (forall t, t < erfa_first -> renders_erfa t = false)
  /\ period (planet star_back) < 0
  /\ ingress (window 0 (-2) planet_a (Qfloor ((0 - 0) / (-2)) - 1)) <= 7
  /\ exists fuel0 : nat,
       forall fuel, (fuel0 <= fuel)%nat ->
         transits_in_range_isot renders_erfa parses_four_digits
           (Some star_back) planet_a (TimeObject 0) (TimeObject 7) 10 fuel
         = Some (Raises ValueError).
Proof.
  assert (H0 : forall t, t < erfa_first -> renders_erfa t = false)
    by (intros t Ht; apply Qle_bool_false; exact Ht).
  assert (H1 : period (planet star_back) < 0) by reflexivity.
  assert (H2 : ingress (window 0 (-2) planet_a (Qfloor ((0 - 0) / (-2)) - 1))
               <= 7) by (vm_compute; discriminate).
  split; [exact H0|]. split; [exact H1|]. split; [exact H2|].
  exact (transits_in_range_negative_period renders_erfa parses_four_digits
           star_back planet_a 0 7 10 H0 H1 H2).
Defined.

(** X27.  A list of texts returned by [transits_in_range] is, entry by
    entry, what [.isot] writes for the windows that the loop on [Time]
    objects computes from the parsed bounds with the same fuel. *)
Theorem transits_in_range_isot_texts (renders : Q -> bool)
    (parses : IsoText -> bool) (g : module_star) (self : Exoplanet)
    (a0 a1 : time_argument) (k : Z) (fuel : nat) (xs : list TransitIsot) :
  transits_in_range_isot renders parses g self a0 a1 k fuel
  = Some (Returns xs) ->
  exists (t0 t1 : Q) (ws : list Transit),
    as_Time parses a0 = Returns t0
    /\ as_Time parses a1 = Returns t1
    /\ transits_in_range g self t0 t1 k fuel = Some (Returns ws)
    /\ Forall2 (fun w x => Transit_isot renders w = Returns x) ws xs.
Proof. apply transits_in_range_isot_returns. Qed.

Lemma transits_in_range_isot_texts_witness :
  transits_in_range_isot renders_erfa parses_four_digits (Some tres3) tres3b
    (Str june_1) (Str june_4) 10 10
  = Some (Returns tres3b_june)
  /\ exists (t0 t1 : Q) (ws : list Transit),
       as_Time parses_four_digits (Str june_1) = Returns t0
       /\ as_Time parses_four_digits (Str june_4) = Returns t1
       /\ transits_in_range (Some tres3) tres3b t0 t1 10 10
          = Some (Returns ws)
       /\ Forall2 (fun w x => Transit_isot renders_erfa w = Returns x)
            ws tres3b_june.
Proof.
  assert (H : transits_in_range_isot renders_erfa parses_four_digits
                (Some tres3) tres3b (Str june_1) (Str june_4) 10 10
              = Some (Returns tres3b_june)) by (vm_compute; reflexivity).
  split; [exact H|].
  exact (transits_in_range_isot_texts renders_erfa parses_four_digits
           (Some tres3) tres3b (Str june_1) (Str june_4) 10 10%nat
           tres3b_june H).
Defined.

End IsotProperties.

(** ** Geometry *)

Section GeometryMore.

Import Geometry Impact.
Local Open Scope R_scope.

Lemma b_computed (self : Exoplanet) (s : Star.t) (inc sma rs : R) :
  inclination self = Some inc -> semimajoraxis self = Some sma ->
  star self = Some s -> Star.radius s = Some rs ->
  let q :=
    quantity_mul
      (quantity_div (mkQuantity (Fin (sma * (scale AU / scale m))) m)
         (mkQuantity (Fin (rs * (scale R_sun / scale m))) m))
      (mkQuantity (np_cos (Fin (inc * (scale degree / scale radian))))
         dimensionless_unscaled) in
  b self None = Returns (q, Some q).
Proof.
  intros Hi Ha Hs Hrs q. unfold b.
  rewrite Ha. cbn [getattr Py.bind]. rewrite to_same_dim by reflexivity.
  cbn [Py.bind]. rewrite Hs. cbn [getattr Py.bind]. rewrite Hrs.
  cbn [getattr Py.bind]. rewrite to_same_dim by reflexivity.
  cbn [Py.bind]. rewrite Hi. cbn [getattr Py.bind].
  unfold quantity_cos. rewrite to_same_dim by reflexivity.
  reflexivity.
Qed.

Lemma denominator_nonneg (i : R) : 0 <= denominator i.
Proof.
  unfold denominator. assert (H := COS_bound i).
  assert (H2 : (cos i) ^ 2 <= 1) by nra. lra.
Qed.

Lemma radicand_impact (Rs Rp A i : R) :
  radicand Rs Rp A i
  = ((1 + Rp / Rs) ^ 2 - (impact_formula Rs A i) ^ 2) / denominator i.
Proof. reflexivity. Qed.

(** A negative radicand ends in a non-finite value. *)
Lemma duration_np_negative_radicand (P Rs Rp A i : R) :
  denominator i <> 0 -> radicand Rs Rp A i < 0 ->
  duration_np P Rs Rp A i = NonFinite.
Proof.
  intros Hden Hneg. unfold duration_np.
  destruct (Req_dec_T Rs 0) as [HRs|HRs].
  - rewrite !(np_div_zero _ Rs HRs).
    cbn [np_add np_pow2 np_mul np_sub np_lift2 np_div np_sqrt].
    repeat (rewrite np_mul_NonFinite_r || cbn [np_arcsin]). reflexivity.
  - rewrite (np_div_Fin Rp Rs HRs), (np_div_Fin A Rs HRs).
    cbn [np_cos np_pow2 np_add np_sub np_mul np_lift2].
    assert (Eden : 1 - cos i * cos i = denominator i)
      by (unfold denominator; ring).
    rewrite Eden, (np_div_Fin _ (denominator i) Hden).
    assert (Erad : ((1 + Rp / Rs) * (1 + Rp / Rs)
                    - A / Rs * cos i * (A / Rs * cos i)) / denominator i
                   = radicand Rs Rp A i)
      by (unfold radicand; f_equal; ring).
    rewrite Erad, np_sqrt_negative by exact Hneg.
    repeat (rewrite np_mul_NonFinite_r || cbn [np_arcsin]). reflexivity.
Qed.

Lemma radicand_negative (Rs Rp A i : R) :
  denominator i <> 0 ->
  Rabs (1 + Rp / Rs) < Rabs (impact_formula Rs A i) ->
  radicand Rs Rp A i < 0.
Proof.
  intros Hden Habs. rewrite radicand_impact.
  assert (Hpos : 0 < denominator i)
    by (assert (H := denominator_nonneg i); lra).
  apply Rsqr_lt_abs_1 in Habs. unfold Rsqr in Habs.
  assert (Hinv : 0 < / denominator i) by (apply Rinv_0_lt_compat; exact Hpos).
  set (x := 1 + Rp / Rs) in *. set (y := impact_formula Rs A i) in *.
  unfold Rdiv. set (c := / denominator i) in *.
  assert (Hd : x ^ 2 - y ^ 2 < 0) by nra.
  nra.
Qed.

Lemma asin_nonneg (x : R) : 0 <= x <= 1 -> 0 <= asin x.
Proof.
  intros [H0 H1].
  destruct (Rle_lt_dec 0 (asin x)) as [H|H]; [exact H|]. exfalso.
  assert (Hb := asin_bound x).
  assert (Hs : sin (asin x) < 0).
  { apply sin_lt_0_var; [|exact H]. assert (Hpi := PI_RGT_0). lra. }
  rewrite sin_asin in Hs by lra. lra.
Qed.

Lemma duration_formula_bounds (P Rs Rp A i : R) :
  0 <= P -> 0 <= Rs / A -> in_domain Rs Rp A i ->
  0 <= minutes_of_days (duration_formula P Rs Rp A i) <= 720 * P.
Proof.
  intros HP Hratio (_ & _ & _ & _ & Harg).
  assert (Harg0 : 0 <= arcsin_argument Rs Rp A i).
  { unfold arcsin_argument. apply Rmult_le_pos; [exact Hratio|apply sqrt_pos]. }
  assert (Ha0 := asin_nonneg _ (conj Harg0 (proj2 Harg))).
  assert (Hab := asin_bound (arcsin_argument Rs Rp A i)).
  assert (Hpi := PI_RGT_0).
  unfold minutes_of_days, duration_formula.
  set (x := asin (arcsin_argument Rs Rp A i)) in *.
  assert (Hq : 0 <= P / PI).
  { unfold Rdiv. apply Rmult_le_pos; [exact HP|].
    apply Rlt_le, Rinv_0_lt_compat. exact Hpi. }
  assert (E : P / PI * (PI / 2) = P / 2) by (field; lra).
  split.
  - apply Rmult_le_pos; [apply Rmult_le_pos; assumption|lra].
  - assert (H1 : P / PI * x <= P / PI * (PI / 2))
      by (apply Rmult_le_compat_l; lra).
    lra.
Qed.

Lemma b_value (inc sma rs : R) :
  rs <> 0 ->
  np_mul
    (np_div (Fin (sma * (scale AU / scale m)))
       (Fin (rs * (scale R_sun / scale m))))
    (np_cos (Fin (inc * (scale degree / scale radian))))
  = Fin (impact_formula (metres rs R_sun) (metres sma AU) (radians inc)).
Proof.
  intros Hrs. cbn [scale AU m R_sun degree radian np_cos].
  rewrite np_div_Fin by lra. cbn [np_mul np_lift2]. f_equal.
  unfold impact_formula, metres, radians. cbn [scale AU R_sun].
  replace (inc * (PI / 180 / 1)) with (inc * (PI / 180)) by field.
  field. lra.
Qed.

(** Each property returns the instance with its own cache filled and
    nothing else changed. *)
Lemma transit_duration_state (self self' : Exoplanet) (d : npfloat) :
  transit_duration self = Returns (d, self') ->
  self' = set_transit_duration self d.
Proof.
  unfold transit_duration. destruct self as [i p a r s cd cq].
  cbn [_transit_duration inclination period semimajoraxis radius star].
  destruct cd as [d0|].
  - intros H. injection H as <- <-. reflexivity.
  - destruct i as [i|]; [|discriminate]. cbn [getattr Py.bind].
    destruct s as [[[rs|]]|]; cbn [getattr Py.bind Star.radius];
      try discriminate.
    destruct r as [r|]; [|discriminate]. cbn [getattr Py.bind].
    destruct p as [p|]; [|discriminate]. cbn [getattr Py.bind].
    destruct a as [a|]; [|discriminate]. cbn [getattr Py.bind].
    destruct (duration_expression _ _ _ _ _) as [d0|e]; [|discriminate].
    cbn [Py.bind]. intros H. injection H as <- <-. reflexivity.
Qed.

Lemma transit_depth_state (self self' : Exoplanet) (q : Quantity) :
  transit_depth self = Returns (q, self') ->
  self' = set_transit_depth self q.
Proof.
  unfold transit_depth. destruct self as [i p a r s cd cq].
  cbn [_transit_depth radius star].
  destruct cq as [q0|].
  - intros H. injection H as <- <-. reflexivity.
  - destruct s as [[[rs|]]|]; cbn [getattr Py.bind Star.radius];
      try discriminate.
    rewrite to_same_dim by reflexivity. cbn [Py.bind].
    destruct r as [r|]; [|discriminate]. cbn [getattr Py.bind].
    rewrite to_same_dim by reflexivity. cbn [Py.bind].
    intros H. injection H as <- <-. reflexivity.
Qed.

(** Neither property reads the cache of the other. *)
Lemma transit_duration_set_depth (self : Exoplanet) (q : Quantity) :
  transit_duration (set_transit_depth self q)
  = match transit_duration self with
    | Returns (d, s) => Returns (d, set_transit_depth s q)
    | Raises e => Raises e
    end.
Proof.
  unfold transit_duration. destruct self as [i p a r s cd cq].
  cbn [set_transit_depth _transit_duration inclination period semimajoraxis
         radius star _transit_depth].
  destruct cd as [d0|]; [reflexivity|].
  destruct i as [i|]; [|reflexivity]. cbn [getattr Py.bind].
  destruct s as [[[rs|]]|]; cbn [getattr Py.bind Star.radius];
    try reflexivity.
  destruct r as [r|]; [|reflexivity]. cbn [getattr Py.bind].
  destruct p as [p|]; [|reflexivity]. cbn [getattr Py.bind].
  destruct a as [a|]; [|reflexivity]. cbn [getattr Py.bind].
  destruct (duration_expression _ _ _ _ _) as [d0|e]; reflexivity.
Qed.

Lemma transit_depth_set_duration (self : Exoplanet) (d : npfloat) :
  transit_depth (set_transit_duration self d)
  = match transit_depth self with
    | Returns (q, s) => Returns (q, set_transit_duration s d)
    | Raises e => Raises e
    end.
Proof.
  unfold transit_depth. destruct self as [i p a r s cd cq].
  cbn [set_transit_duration _transit_duration inclination period
         semimajoraxis radius star _transit_depth].
  destruct cq as [q0|]; [reflexivity|].
  destruct s as [[[rs|]]|]; cbn [getattr Py.bind Star.radius];
    try reflexivity.
  rewrite to_same_dim by reflexivity. cbn [Py.bind].
  destruct r as [r|]; [|reflexivity]. cbn [getattr Py.bind].
  rewrite to_same_dim by reflexivity. reflexivity.
Qed.

Lemma radians_60 : radians 60 = PI / 3.
Proof. unfold radians. field. Qed.

End GeometryMore.

Section GeometryProperties.

Import Geometry Impact.
Local Open Scope R_scope.

(** X12.  With an empty cache, [transit_duration] raises [AttributeError]
    as soon as one of the attributes it reads is missing: the inclination,
    the star, the radius of the star, the radius, the period or the
    semi-major axis. *)
Theorem transit_duration_missing_attribute (self : Exoplanet) :
  _transit_duration self = None ->
  inclination self = None
  \/ star self = None
  \/ (exists s, star self = Some s /\ Star.radius s = None)
  \/ radius self = None
  \/ period self = None
  \/ semimajoraxis self = None ->
  transit_duration self = Raises AttributeError.
Proof.
  intros Hc Hmiss. unfold transit_duration. rewrite Hc.
  destruct (inclination self) as [i|] eqn:Ei; [|reflexivity].
  cbn [getattr Py.bind].
  destruct (star self) as [s|] eqn:Es; [|reflexivity].
  cbn [getattr Py.bind].
  destruct (Star.radius s) as [rs|] eqn:Ers; [|reflexivity].
  cbn [getattr Py.bind].
  destruct (radius self) as [r|] eqn:Er; [|reflexivity].
  cbn [getattr Py.bind].
  destruct (period self) as [p|] eqn:Ep; [|reflexivity].
  cbn [getattr Py.bind].
  destruct (semimajoraxis self) as [a|] eqn:Ea; [|reflexivity].
  exfalso.
  destruct Hmiss as [H|[H|[(s' & H & H')|[H|[H|H]]]]]; try discriminate.
  injection H as <-. rewrite Ers in H'. discriminate.
Qed.

Lemma transit_duration_missing_attribute_witness :
  _transit_duration no_inclination = None
  /\ inclination no_inclination = None
  /\ transit_duration no_inclination = Raises AttributeError.
Proof.
  split; [reflexivity|]. split; [reflexivity|].
  exact (transit_duration_missing_attribute no_inclination eq_refl
           (or_introl eq_refl)).
Defined.

(** X13.  A read of [transit_duration] that returns leaves the instance
    with that value cached and every other attribute as it was, and a
    second read returns the same value and changes nothing. *)
Theorem transit_duration_read_twice (self self' : Exoplanet) (d : npfloat) :
  transit_duration self = Returns (d, self') ->
  _transit_duration self' = Some d
  /\ inclination self' = inclination self
  /\ period self' = period self
  /\ semimajoraxis self' = semimajoraxis self
  /\ radius self' = radius self
  /\ star self' = star self
  /\ _transit_depth self' = _transit_depth self
  /\ transit_duration self' = Returns (d, self').
Proof.
  intros H. apply transit_duration_state in H. subst self'.
  repeat split.
Qed.

Lemma transit_duration_read_twice_witness :
  transit_duration face_on
  = Returns (NonFinite, set_transit_duration face_on NonFinite)
  /\ transit_duration (set_transit_duration face_on NonFinite)
     = Returns (NonFinite, set_transit_duration face_on NonFinite).
Proof.
  assert (H : transit_duration face_on
              = Returns (NonFinite, set_transit_duration face_on NonFinite)).
  { rewrite (transit_duration_computed face_on (Star.mk (Some 1)) 0 1 1 1 1)
      by reflexivity.
    rewrite (duration_np_zero_denominator _ _ _ _ _ denominator_face_on).
    reflexivity. }
  split; [exact H|].
  destruct (transit_duration_read_twice _ _ _ H)
    as (_ & _ & _ & _ & _ & _ & _ & H2).
  exact H2.
Defined.

(** X14.  [transit_duration] and [transit_depth] do not disturb each
    other: reading them in either order gives the same two values and the
    same instance at the end. *)
Theorem transit_duration_depth_commute (self s1 s2 : Exoplanet)
    (d : npfloat) (q : Quantity) :
  transit_duration self = Returns (d, s1) ->
  transit_depth s1 = Returns (q, s2) ->
  exists s1' : Exoplanet,
    transit_depth self = Returns (q, s1')
    /\ transit_duration s1' = Returns (d, s2).
Proof.
  intros Hd Hq.
  assert (E1 := transit_duration_state _ _ _ Hd). subst s1.
  rewrite transit_depth_set_duration in Hq.
  destruct (transit_depth self) as [[q' s1']|e] eqn:Eq; [|discriminate].
  injection Hq as -> <-.
  exists s1'. split; [reflexivity|].
  assert (E2 := transit_depth_state _ _ _ Eq). subst s1'.
  rewrite transit_duration_set_depth, Hd.
  destruct self; reflexivity.
Qed.

Lemma transit_duration_depth_commute_witness :
  exists (d : npfloat) (q : Quantity) (s1 s2 s1' : Exoplanet),
    transit_duration face_on = Returns (d, s1)
    /\ transit_depth s1 = Returns (q, s2)
    /\ transit_depth face_on = Returns (q, s1')
    /\ transit_duration s1' = Returns (d, s2).
Proof.
  assert (H1 : transit_duration face_on
               = Returns (NonFinite, set_transit_duration face_on NonFinite)).
  { rewrite (transit_duration_computed face_on (Star.mk (Some 1)) 0 1 1 1 1)
      by reflexivity.
    rewrite (duration_np_zero_denominator _ _ _ _ _ denominator_face_on).
    reflexivity. }
  assert (H2 := transit_depth_computed
                  (set_transit_duration face_on NonFinite) (Star.mk (Some 1))
                  1 1 eq_refl eq_refl eq_refl eq_refl).
  cbv zeta in H2.
  destruct (transit_duration_depth_commute _ _ _ _ _ H1 H2) as (s1' & H3 & H4).
  do 5 eexists. split; [exact H1|]. split; [exact H2|].
  split; [exact H3|exact H4].
Defined.

(** X15.  A planet that does not cross the disc of its star has no
    duration: when the impact parameter returned by [b] exceeds
    1 + R_planet/R_star in absolute value (and the inclination is not a
    multiple of 180 degrees), [transit_duration] returns a non-finite float
    and raises nothing. *)
Theorem transit_duration_no_transit (self : Exoplanet) (s : Star.t)
    (inc per sma rp rs bv : R) (qb : Quantity) (cache : option Quantity) :
  inclination self = Some inc -> period self = Some per ->
  semimajoraxis self = Some sma -> radius self = Some rp ->
  star self = Some s -> Star.radius s = Some rs ->
  _transit_duration self = None ->
  rs <> 0 ->
  denominator (radians inc) <> 0 ->
  b self None = Returns (qb, cache) ->
  value qb = Fin bv ->
  Rabs (1 + metres rp R_jup / metres rs R_sun) < Rabs bv ->
  transit_duration self
  = Returns (NonFinite, set_transit_duration self NonFinite).
Proof.
  intros Hi Hp Ha Hr Hs Hrs Hc Hrs0 Hden Hb Hv Habs.
  assert (Hb' := b_computed self s inc sma rs Hi Ha Hs Hrs). cbv zeta in Hb'.
  rewrite Hb' in Hb.
  assert (Eq : qb
               = quantity_mul
                   (quantity_div
                      (mkQuantity (Fin (sma * (scale AU / scale m))) m)
                      (mkQuantity (Fin (rs * (scale R_sun / scale m))) m))
                   (mkQuantity
                      (np_cos (Fin (inc * (scale degree / scale radian))))
                      dimensionless_unscaled)) by congruence.
  subst qb. cbn [value quantity_mul quantity_div] in Hv.
  rewrite (b_value inc sma rs Hrs0) in Hv.
  assert (Ev : bv = impact_formula (metres rs R_sun) (metres sma AU)
                      (radians inc)) by congruence.
  subst bv.
  rewrite (transit_duration_computed self s inc per sma rp rs) by assumption.
  rewrite duration_np_negative_radicand;
    [reflexivity|exact Hden|apply radicand_negative; assumption].
Qed.

Lemma transit_duration_no_transit_witness :
  denominator (radians 60) <> 0
  /\ Rabs (1 + metres 1 R_jup / metres 1 R_sun)
     < Rabs (impact_formula (metres 1 R_sun) (metres 1 AU) (radians 60))
  /\ transit_duration tilted
     = Returns (NonFinite, set_transit_duration tilted NonFinite).
Proof.
  assert (Ec : cos (radians 60) = 1 / 2) by (rewrite radians_60; apply cos_PI3).
  assert (Hden : denominator (radians 60) <> 0)
    by (unfold denominator; rewrite Ec; lra).
  assert (Habs : Rabs (1 + metres 1 R_jup / metres 1 R_sun)
                 < Rabs (impact_formula (metres 1 R_sun) (metres 1 AU)
                           (radians 60))).
  { unfold impact_formula. rewrite Ec. unfold metres. cbn [scale R_jup R_sun AU].
    rewrite !Rabs_pos_eq by lra. lra. }
  assert (H1 : (1 : R) <> 0) by lra.
  split; [exact Hden|]. split; [exact Habs|].
  exact (transit_duration_no_transit tilted (Star.mk (Some 1)) 60 1 1 1 1 _ _ _
           eq_refl eq_refl eq_refl eq_refl eq_refl eq_refl eq_refl H1 Hden
           (b_computed tilted (Star.mk (Some 1)) 60 1 1
              eq_refl eq_refl eq_refl eq_refl)
           (b_value 60 1 1 H1) Habs).
Defined.

(** X16.  Where the formula is defined, for positive radius of the star and
    semi-major axis and a period that is not negative, the duration
    returned lies between 0 and half the period (720 minutes per day of
    period). *)
Theorem transit_duration_bounds (self : Exoplanet) (s : Star.t)
    (inc per sma rp rs : R) :
  inclination self = Some inc -> period self = Some per ->
  semimajoraxis self = Some sma -> radius self = Some rp ->
  star self = Some s -> Star.radius s = Some rs ->
  _transit_duration self = None ->
  0 <= per -> 0 < rs -> 0 < sma ->
  in_domain (metres rs R_sun) (metres rp R_jup) (metres sma AU) (radians inc) ->
  exists d : R,
    transit_duration self = Returns (Fin d, set_transit_duration self (Fin d))
    /\ 0 <= d <= 720 * per.
Proof.
  intros Hi Hp Ha Hr Hs Hrs Hc Hper Hrspos Hsma Hdom.
  eexists. split.
  - rewrite (transit_duration_computed self s inc per sma rp rs)
      by assumption.
    rewrite (duration_np_in_domain _ _ _ _ _ Hdom). reflexivity.
  - apply duration_formula_bounds; [exact Hper| |exact Hdom].
    unfold metres. cbn [scale R_sun AU].
    apply Rlt_le, Rdiv_lt_0_compat; lra.
Qed.

Lemma transit_duration_bounds_witness :
  in_domain (metres 1 R_sun) (metres 1 R_jup) (metres 1 AU) (radians 90)
  /\ exists d : R,
       transit_duration edge_on
       = Returns (Fin d, set_transit_duration edge_on (Fin d))
       /\ 0 <= d <= 720 * 1.
Proof.
  split; [exact in_domain_edge_on|].
  exact (transit_duration_bounds edge_on (Star.mk (Some 1)) 90 1 1 1 1
           eq_refl eq_refl eq_refl eq_refl eq_refl eq_refl eq_refl
           ltac:(lra) ltac:(lra) ltac:(lra) in_domain_edge_on).
Defined.

(** X17.  With the semi-major axis, the radius of the star and the
    inclination set, the radius of the star not zero and the cache empty,
    [b] returns the dimensionless quantity (a / R_star) cos i, both lengths
    in metres and the inclination in radians, and caches it:
    [impact_parameter] then returns the same quantity. *)
Theorem b_formula (self : Exoplanet) (s : Star.t) (inc sma rs : R) :
  inclination self = Some inc -> semimajoraxis self = Some sma ->
  star self = Some s -> Star.radius s = Some rs ->
  rs <> 0 ->
  exists q : Quantity,
    b self None = Returns (q, Some q)
    /\ value q
       = Fin (impact_formula (metres rs R_sun) (metres sma AU) (radians inc))
    /\ same_dim (unit q) dimensionless_unscaled = true
    /\ scale (unit q) = 1
    /\ impact_parameter self (Some q) = Returns (q, Some q).
Proof.
  intros Hi Ha Hs Hrs Hrs0. eexists.
  split; [apply (b_computed self s inc sma rs); assumption|].
  split; [apply b_value; exact Hrs0|].
  split; [reflexivity|]. split; [|reflexivity].
  cbn [unit quantity_mul quantity_div scale unit_mul unit_div m
         dimensionless_unscaled]. field.
Qed.

Lemma b_formula_witness :
  (1 : R) <> 0
  /\ exists q : Quantity,
       b edge_on None = Returns (q, Some q)
       /\ value q
          = Fin (impact_formula (metres 1 R_sun) (metres 1 AU) (radians 90)).
Proof.
  assert (H : (1 : R) <> 0) by lra.
  split; [exact H|].
  destruct (b_formula edge_on (Star.mk (Some 1)) 90 1 1
              eq_refl eq_refl eq_refl eq_refl H) as (q & H1 & H2 & _).
  exists q. split; [exact H1|exact H2].
Defined.

(** X18.  A star of radius zero makes [transit_depth] divide by zero: it
    raises nothing, and returns and caches a non-finite quantity. *)
Theorem transit_depth_zero_star_radius (self : Exoplanet) (s : Star.t)
    (rp : R) :
  radius self = Some rp -> star self = Some s -> Star.radius s = Some 0 ->
  _transit_depth self = None ->
  exists q : Quantity,
    transit_depth self = Returns (q, set_transit_depth self q)
    /\ value q = NonFinite.
Proof.
  intros Hr Hs Hrs Hc. eexists.
  split; [apply (transit_depth_computed self s rp 0); assumption|].
  cbn [value quantity_pow2 quantity_div].
  rewrite np_div_zero by ring. reflexivity.
Qed.

Lemma transit_depth_zero_star_radius_witness :
  exists q : Quantity,
    transit_depth (fresh 90 1 1 1 0)
    = Returns (q, set_transit_depth (fresh 90 1 1 1 0) q)
    /\ value q = NonFinite.
Proof.
  exact (transit_depth_zero_star_radius (fresh 90 1 1 1 0) (Star.mk (Some 0)) 1
           eq_refl eq_refl eq_refl eq_refl).
Defined.

End GeometryProperties.

(** ** The attribute dictionary *)

Section BagMore.

Import Bag Construct.
Local Open Scope string_scope.

Context {F : Type}.
Variable py_float : string -> option F.
Variable cls : pyclass.

Lemma build_properties_app (els1 els2 : list Element) :
  forall o : gmap string (pyval F),
    _build_properties py_float cls o (els1 ++ els2)
    = (o1 <-- _build_properties py_float cls o els1 ;;
       _build_properties py_float cls o1 els2).
Proof.
  induction els1 as [|e els1 IH]; intros o; [reflexivity|].
  cbn [app _build_properties].
  destruct (build_step py_float cls o e) as [o1|exn]; cbn [Py.bind];
    [apply IH|reflexivity].
Qed.

(** What one turn of the loop can do to the instance. *)
Lemma build_step_cases (o o' : gmap string (pyval F)) (e : Element) :
  build_step py_float cls o e = Returns o' ->
  (tag e = "name"
   /\ exists l, o !! "names" = Some (PList l)
                /\ o' = <["names" := PList (l ++ [text e])]> o)
  \/ (tag e <> "name" /\ o' = o)
  \/ (tag e <> "name" /\ refuses cls (tag e) = None
      /\ exists s, text e = Some s
                   /\ o' = <[tag e := match py_float s with
                                      | Some x => PFloat x
                                      | None => PStr s
                                      end]> o).
Proof.
  unfold build_step. destruct (String.eqb (tag e) "name") eqn:E; cbn [negb].
  - apply String.eqb_eq in E. unfold names_append.
    destruct (o !! "names") as [[| | |l|]|] eqn:En; try discriminate.
    intros H. injection H as <-. left. split; [exact E|].
    exists l. split; reflexivity.
  - apply String.eqb_neq in E. unfold float, setattr.
    destruct (text e) as [s|]; cbn [Py.bind].
    + destruct (py_float s) as [x|] eqn:Ep; cbn [Py.bind text_value].
      * destruct (refuses cls (tag e)) as [[]|] eqn:Er; try discriminate;
          intros H; injection H as <-.
        -- right; left. split; [exact E|reflexivity].
        -- right; left. split; [exact E|reflexivity].
        -- right; right. split; [exact E|]. split; [reflexivity|].
           exists s. rewrite Ep. split; reflexivity.
      * destruct (refuses cls (tag e)) as [exn|] eqn:Er; [discriminate|].
        intros H; injection H as <-.
        right; right. split; [exact E|]. split; [reflexivity|].
        exists s. rewrite Ep. split; reflexivity.
    + intros H; injection H as <-. right; left. split; [exact E|reflexivity].
Qed.

Lemma build_step_frame (o o' : gmap string (pyval F)) (e : Element)
    (k : string) :
  build_step py_float cls o e = Returns o' ->
  (is_Some (o !! k) -> is_Some (o' !! k))
  /\ (k <> "names" -> (tag e = k -> text e = None) -> o' !! k = o !! k).
Proof.
  intros H. apply build_step_cases in H.
  destruct H as [(Hn & l & Hl & ->)|[(Hn & ->)|(Hn & Hr & s & Hs & ->)]].
  - split.
    + intros Hk. destruct (decide ("names" = k)) as [<-|Hne].
      * rewrite lookup_insert_eq. eauto.
      * rewrite lookup_insert_ne by exact Hne. exact Hk.
    + intros Hk _. apply lookup_insert_ne. congruence.
  - split; auto.
  - split.
    + intros Hk. destruct (decide (tag e = k)) as [<-|Hne].
      * rewrite lookup_insert_eq. eauto.
      * rewrite lookup_insert_ne by exact Hne. exact Hk.
    + intros _ Hk. apply lookup_insert_ne. intros Et.
      specialize (Hk Et). congruence.
Qed.

Lemma build_properties_frame_all (els : list Element) (k : string) :
  forall o o' : gmap string (pyval F),
    _build_properties py_float cls o els = Returns o' ->
    (is_Some (o !! k) -> is_Some (o' !! k))
    /\ (k <> "names" ->
        Forall (fun e => tag e = k -> text e = None) els ->
        o' !! k = o !! k).
Proof.
  induction els as [|e els IH]; intros o o' H.
  - injection H as <-. split; auto.
  - cbn [_build_properties] in H.
    destruct (build_step py_float cls o e) as [o1|exn] eqn:E1; [|discriminate].
    cbn [Py.bind] in H.
    destruct (build_step_frame _ _ _ k E1) as [Hs1 Hf1].
    destruct (IH _ _ H) as [Hs2 Hf2]. split.
    + auto.
    + intros Hk Hall. inversion Hall as [|? ? He Hrest]; subst.
      rewrite (Hf2 Hk Hrest). apply Hf1; assumption.
Qed.

(** Once [names] is not a list it never becomes one again. *)
Lemma build_step_names_lost (o o' : gmap string (pyval F)) (e : Element) :
  names_lost o ->
  build_step py_float cls o e = Returns o' ->
  tag e <> "name" /\ names_lost o'.
Proof.
  intros Hlost H. apply build_step_cases in H.
  destruct H as [(Hn & l & Hl & ->)|[(Hn & ->)|(Hn & Hr & s & Hs & ->)]].
  - exfalso. unfold names_lost in Hlost. rewrite Hl in Hlost. exact Hlost.
  - split; assumption.
  - split; [exact Hn|]. unfold names_lost in *.
    destruct (decide (tag e = "names")) as [Et|Hne].
    + rewrite Et, lookup_insert_eq. destruct (py_float s); exact I.
    + rewrite lookup_insert_ne by exact Hne. exact Hlost.
Qed.

Lemma build_properties_names_lost (els : list Element) :
  forall o : gmap string (pyval F),
    names_lost o ->
    Exists (fun e => tag e = "name") els ->
    exists exn, _build_properties py_float cls o els = Raises exn.
Proof.
  induction els as [|e els IH]; intros o Hlost Hex.
  - inversion Hex.
  - cbn [_build_properties].
    destruct (build_step py_float cls o e) as [o1|exn] eqn:E1;
      cbn [Py.bind]; [|eauto].
    destruct (build_step_names_lost _ _ _ Hlost E1) as [Hn Hlost1].
    apply IH; [exact Hlost1|].
    inversion Hex as [? ? He|? ? Hrest]; subst; [contradiction|exact Hrest].
Qed.

Lemma filter_head_find (els : list Element) :
  hd_error (List.filter is_name els) = List.find is_name els.
Proof.
  induction els as [|e els IH]; [reflexivity|].
  cbn [List.filter List.find]. destruct (is_name e); [reflexivity|exact IH].
Qed.

End BagMore.

Section BagProperties.

Import Bag Construct.
Local Open Scope string_scope.

(** X19.  Whatever the elements, a build that returns removes no attribute
    of the instance, and leaves as it was every attribute other than
    [names] that is not the tag of an element with a text. *)
Theorem build_properties_frame {F : Type} (py_float : string -> option F)
    (cls : pyclass) (o o' : gmap string (pyval F)) (element : list Element)
    (k : string) :
  _build_properties py_float cls o element = Returns o' ->
  (is_Some (o !! k) -> is_Some (o' !! k))
  /\ (k <> "names" ->
      Forall (fun e => tag e = k -> text e = None) element ->
      o' !! k = o !! k).
Proof. apply build_properties_frame_all. Qed.

Lemma build_properties_frame_witness :
  _build_properties read_decimal OEC_class (object_of fresh_bag) tres3_elements
  = Returns (object_of (build_spec read_decimal fresh_bag tres3_elements))
  /\ object_of (build_spec read_decimal fresh_bag tres3_elements) !! "oec"
     = object_of fresh_bag !! "oec".
Proof.
  assert (H : _build_properties read_decimal OEC_class (object_of fresh_bag)
                tres3_elements
              = Returns
                  (object_of (build_spec read_decimal fresh_bag tres3_elements)))
    by (vm_compute; reflexivity).
  split; [exact H|].
  apply (build_properties_frame read_decimal OEC_class _ _ tres3_elements "oec" H).
  - discriminate.
  - unfold tres3_elements.
    repeat (constructor; [cbn [tag text]; first [discriminate|reflexivity]|]).
    constructor.
Defined.

(** X20.  The last element with a text decides a field: when a build
    returns, a tag other than "name" and "names" that [setattr] accepts
    holds the float parsed from the text of its last element that has one,
    or that text when it is no float, whatever came before. *)
Theorem build_properties_last_wins {F : Type} (py_float : string -> option F)
    (cls : pyclass) (o o' : gmap string (pyval F))
    (before after : list Element) (e : Element) (s : string) :
  _build_properties py_float cls o (before ++ e :: after) = Returns o' ->
  tag e <> "name" -> tag e <> "names" ->
  refuses cls (tag e) = None ->
  text e = Some s ->
  Forall (fun e' => tag e' = tag e -> text e' = None) after ->
  o' !! tag e
  = Some (match py_float s with
          | Some x => PFloat x
          | None => PStr s
          end).
Proof.
  intros Hrun Hname Hnames Hr Hs Hafter.
  rewrite build_properties_app in Hrun.
  destruct (_build_properties py_float cls o before) as [o1|exn];
    [|discriminate].
  cbn [Py.bind _build_properties] in Hrun.
  assert (Hstep : build_step py_float cls o1 e
                  = Returns (<[tag e := match py_float s with
                                        | Some x => PFloat x
                                        | None => PStr s
                                        end]> o1)).
  { unfold build_step. apply String.eqb_neq in Hname. rewrite Hname.
    cbn [negb]. unfold float, setattr. rewrite Hs, Hr.
    destruct (py_float s); reflexivity. }
  rewrite Hstep in Hrun. cbn [Py.bind] in Hrun.
  destruct (build_properties_frame_all py_float cls after (tag e) _ _ Hrun)
    as [_ Hframe].
  rewrite (Hframe Hnames Hafter). apply lookup_insert_eq.
Qed.

Lemma build_properties_last_wins_witness :
  _build_properties read_decimal OEC_class (object_of fresh_bag)
    ([mkElement "period" (Some "2.5")]
       ++ mkElement "period" (Some "1.30619")
       :: [mkElement "name" (Some "TrES-3"); mkElement "period" None])
  = Returns
      (object_of
         (build_spec read_decimal fresh_bag
            [mkElement "period" (Some "2.5");
             mkElement "period" (Some "1.30619");
             mkElement "name" (Some "TrES-3"); mkElement "period" None]))
  /\ object_of
       (build_spec read_decimal fresh_bag
          [mkElement "period" (Some "2.5");
           mkElement "period" (Some "1.30619");
           mkElement "name" (Some "TrES-3"); mkElement "period" None])
     !! "period"
     = Some (match read_decimal "1.30619" with
             | Some x => PFloat x
             | None => PStr "1.30619"
             end).
Proof.
  assert (H : _build_properties read_decimal OEC_class (object_of fresh_bag)
                ([mkElement "period" (Some "2.5")]
                   ++ mkElement "period" (Some "1.30619")
                   :: [mkElement "name" (Some "TrES-3");
                       mkElement "period" None])
              = Returns
                  (object_of
                     (build_spec read_decimal fresh_bag
                        [mkElement "period" (Some "2.5");
                         mkElement "period" (Some "1.30619");
                         mkElement "name" (Some "TrES-3");
                         mkElement "period" None])))
    by (vm_compute; reflexivity).
  split; [exact H|].
  apply (build_properties_last_wins read_decimal OEC_class _ _ _ _
           (mkElement "period" (Some "1.30619")) "1.30619" H).
  - discriminate.
  - discriminate.
  - reflexivity.
  - reflexivity.
  - repeat (constructor; [cbn [tag text]; first [discriminate|reflexivity]|]).
    constructor.
Defined.

(** X21.  An element with a text whose tag [setattr] refuses with
    [AttributeError] or [TypeError] (a property without setter,
    [__class__], ...) is dropped when the text is a float, and the build
    goes on as if it were not there; when the text is no float the build
    ends with that exception. *)
Theorem build_properties_refused_tag {F : Type}
    (py_float : string -> option F) (cls : pyclass)
    (o : gmap string (pyval F)) (e : Element) (rest : list Element)
    (s : string) (exn : exn) :
  tag e <> "name" ->
  text e = Some s ->
  refuses cls (tag e) = Some exn ->
  exn = AttributeError \/ exn = TypeError ->
  _build_properties py_float cls o (e :: rest)
  = match py_float s with
    | Some _ => _build_properties py_float cls o rest
    | None => Raises exn
    end.
Proof.
  intros Hname Hs Hr Hexn. cbn [_build_properties]. unfold build_step.
  apply String.eqb_neq in Hname. rewrite Hname. cbn [negb].
  unfold float, setattr. rewrite Hs, Hr.
  destruct (py_float s) as [x|]; cbn [Py.bind].
  - destruct Hexn as [-> | ->]; reflexivity.
  - reflexivity.
Qed.

Lemma build_properties_refused_tag_witness :
  refuses Exoplanet_class "transit_depth" = Some AttributeError
  /\ _build_properties read_decimal Exoplanet_class (object_of fresh_bag)
       (mkElement "transit_depth" (Some "0.02") :: tres3_elements)
     = match read_decimal "0.02" with
       | Some _ =>
           _build_properties read_decimal Exoplanet_class (object_of fresh_bag)
             tres3_elements
       | None => Raises AttributeError
       end.
Proof.
  assert (H : refuses Exoplanet_class "transit_depth" = Some AttributeError)
    by reflexivity.
  split; [exact H|].
  apply (build_properties_refused_tag read_decimal Exoplanet_class _
           (mkElement "transit_depth" (Some "0.02")) tres3_elements "0.02"
           AttributeError).
  - discriminate.
  - reflexivity.
  - exact H.
  - left. reflexivity.
Defined.

(** X22.  An element tagged "names" with a text, on a class whose
    [setattr] accepts that name, ruins every later "name" element: a build
    that meets one after it ends with an exception, whatever the instance
    and the elements before. *)
Theorem build_properties_after_names_tag {F : Type}
    (py_float : string -> option F) (cls : pyclass)
    (o : gmap string (pyval F)) (before after : list Element) (s : string) :
  refuses cls "names" = None ->
  Exists (fun e => tag e = "name") after ->
  exists exn,
    _build_properties py_float cls o
      (before ++ mkElement "names" (Some s) :: after)
    = Raises exn.
Proof.
  intros Hr Hex. rewrite build_properties_app.
  destruct (_build_properties py_float cls o before) as [o1|exn];
    cbn [Py.bind]; [|eauto].
  cbn [_build_properties].
  assert (Hstep : build_step py_float cls o1 (mkElement "names" (Some s))
                  = Returns (<["names" := match py_float s with
                                          | Some x => PFloat x
                                          | None => PStr s
                                          end]> o1)).
  { unfold build_step. cbn [tag text negb String.eqb Ascii.eqb Bool.eqb].
    unfold float, setattr. rewrite Hr. destruct (py_float s); reflexivity. }
  rewrite Hstep. cbn [Py.bind].
  apply build_properties_names_lost; [|exact Hex].
  unfold names_lost. rewrite lookup_insert_eq. destruct (py_float s); exact I.
Qed.

Lemma build_properties_after_names_tag_witness :
  refuses OEC_class "names" = None
  /\ Exists (fun e => tag e = "name") tres3_elements
  /\ exists exn,
       _build_properties read_decimal OEC_class (object_of fresh_bag)
         ([mkElement "mass" (Some "1.9")]
            ++ mkElement "names" (Some "1.0") :: tres3_elements)
       = Raises exn.
Proof.
  assert (H1 : refuses OEC_class "names" = None) by reflexivity.
  assert (H2 : Exists (fun e => tag e = "name") tres3_elements)
    by (constructor; reflexivity).
  split; [exact H1|]. split; [exact H2|].
  exact (build_properties_after_names_tag read_decimal OEC_class
           (object_of fresh_bag) [mkElement "mass" (Some "1.9")]
           tres3_elements "1.0" H1 H2).
Defined.

(** X23.  On a fresh instance and elements that only write the bag, [name]
    after the build is the text of the first "name" element in document
    order ([None] of Python when that element is empty), and raises
    [IndexError] when there is no such element. *)
Theorem name_is_first_name_element {F : Type}
    (py_float : string -> option F) (cls : pyclass) (b : bag F)
    (element : list Element) (o' : gmap string (pyval F)) :
  aliases b = nil ->
  Forall (plain_tag cls) element ->
  _build_properties py_float cls (object_of b) element = Returns o' ->
  name o'
  = match List.find is_name element with
    | Some e => Returns (text_value (text e))
    | None => Raises IndexError
    end.
Proof.
  intros Hb Hall Hrun.
  rewrite (build_properties_plain py_float cls element b Hall) in Hrun.
  assert (E : o' = object_of (build_spec py_float b element)) by congruence.
  subst o'. rewrite name_object_of. unfold name_spec.
  rewrite aliases_build_spec, Hb. cbn [app].
  rewrite <- filter_head_find. fold is_name.
  change (fun e => String.eqb (tag e) "name") with is_name.
  destruct (List.filter is_name element) as [|e l]; reflexivity.
Qed.

Lemma name_is_first_name_element_witness :
  Forall (plain_tag OEC_class) tres3_elements
  /\ name (object_of (build_spec read_decimal fresh_bag tres3_elements))
     = Returns (PStr "TrES-3").
Proof.
  assert (H1 : Forall (plain_tag OEC_class) tres3_elements).
  { unfold tres3_elements.
    repeat (constructor;
            [first [left; reflexivity
                   |right; left; reflexivity
                   |right; right; split; [discriminate|reflexivity]]|]).
    constructor. }
  assert (H2 : _build_properties read_decimal OEC_class (object_of fresh_bag)
                 tres3_elements
               = Returns
                   (object_of (build_spec read_decimal fresh_bag tres3_elements)))
    by (vm_compute; reflexivity).
  split; [exact H1|].
  exact (name_is_first_name_element read_decimal OEC_class fresh_bag
           tres3_elements _ eq_refl H1 H2).
Defined.

End BagProperties.
